(** * weather-widget: a shallow embedding of [main.py]

    The widget resolves the caller's position from its public IP address,
    fetches current and hourly weather from Open-Meteo and prints one Waybar
    JSON object.  This development embeds the functions of [main.py]

      - [wmo_to_icon_desc] and the table [WMO],
      - [format_hourly_forecast],
      - [build_waybar_output],
      - [get_weather],
      - [get_ip_location],
      - [main],

    and states the properties of the specification about them.

    Conventions.  Python [int] is [Z]; a finite Python [float] is the
    rational it denotes (every binary float is one), so that [round], [int]
    and fixed-point formatting are exact; [str] is [string], a sequence of
    UTF-8 bytes; a [dict] with known keys is a record, the table [WMO] and
    decoded JSON objects are [gmap]s; exceptions are values of [exn] carried
    by [result]; the clock, the time-zone database and the network are read
    from explicit records ([Clock], [World]). *)

From Stdlib Require Import ZArith QArith Qround String Ascii List DecimalString Lia.
From stdpp Require Import gmap strings list fin_maps.

#[local] Set Warnings "-register-all".
#[local] Open Scope Z_scope.

(* ===================================================================== *)
(** ** Python values *)
(* ===================================================================== *)

(** An exception: its class name and [str(e)]. *)
Inductive exn : Type := Exn (cls : string) (msg : string).

Definition exn_str (e : exn) : string := let 'Exn _ m := e in m.

(** A computation that returns or raises. *)
Inductive result (A : Type) : Type :=
| Ok (a : A)
| Raise (e : exn).
Arguments Ok {A} a.
Arguments Raise {A} e.

#[global] Instance result_ret : MRet result := fun A a => Ok a.
#[global] Instance result_bind : MBind result := fun A B k m =>
  match m with
  | Ok a => k a
  | Raise e => Raise e
  end.

(** [try: body except Exception as e: handler]. *)
Definition try_except {A} (body : result A) (handler : exn -> result A) : result A :=
  match body with
  | Ok a => Ok a
  | Raise e => handler e
  end.

(** [l[i]] on a Python list. *)
Definition py_index {A} (l : list A) (i : nat) : result A :=
  match l !! i with
  | Some a => Ok a
  | None => Raise (Exn "IndexError" "list index out of range")
  end.

(** A Python [float].  A finite float is the rational number it denotes
    (negative zero is identified with zero). *)
Inductive pyfloat : Type :=
| FFin (q : Q)
| FNan
| FInf (negative : bool).

(** Round half to even, the rounding of [round(x)] and of [timedelta / int]. *)
Definition div_round_half_even (a b : Z) : Z :=
  let q := a `div` b in
  let r := a `mod` b in
  match Z.abs (2 * r) ?= Z.abs b with
  | Lt => q
  | Gt => q + 1
  | Eq => if Z.even q then q else q + 1
  end.

Definition Q_round_half_even (q : Q) : Z :=
  div_round_half_even (Qnum q) (Z.pos (Qden q)).

(** [round(x)] for a float [x]: an [int], or an exception on NaN and
    infinities. *)
Definition py_round (x : pyfloat) : result Z :=
  match x with
  | FFin q => Ok (Q_round_half_even q)
  | FNan => Raise (Exn "ValueError" "cannot convert float NaN to integer")
  | FInf _ => Raise (Exn "OverflowError" "cannot convert float infinity to integer")
  end.

(** [int(x)] for a float [x]: truncation towards zero. *)
Definition py_int (x : pyfloat) : result Z :=
  match x with
  | FFin q => Ok (Qnum q ÷ Z.pos (Qden q))
  | FNan => Raise (Exn "ValueError" "cannot convert float NaN to integer")
  | FInf _ => Raise (Exn "OverflowError" "cannot convert float infinity to integer")
  end.

(** [str(n)] for an [int]. *)
Definition str_int (z : Z) : string := NilZero.string_of_int (Z.to_int z).

(** The decimal digits of [n], left-padded with zeros to [width]. *)
Definition digits (width : nat) (n : Z) : string :=
  let s := str_int n in
  String.concat "" (replicate (width - String.length s) "0") +:+ s.

(** [f"{x:.{d}f}"]: fixed-point formatting, correctly rounded. *)
Definition fmt_f (d : nat) (x : pyfloat) : string :=
  match x with
  | FNan => "nan"
  | FInf false => "inf"
  | FInf true => "-inf"
  | FFin q =>
      let scale := 10 ^ Z.of_nat d in
      let m := Z.abs (div_round_half_even (Qnum q * scale) (Z.pos (Qden q))) in
      (if Qnum q <? 0 then "-" else "")
        +:+ str_int (m `div` scale) +:+ "." +:+ digits d (m `mod` scale)
  end.

(** The line feed and the double quote. *)
Definition LF : string := String "010"%char EmptyString.
Definition DQUOTE : string := String "034"%char EmptyString.

(** ["\n".join(lines)]. *)
Definition join_lines (lines : list string) : string := String.concat LF lines.

(** [s.split(sep)] for a separator of one byte. *)
Fixpoint split_byte (sep : ascii) (s : string) : list string :=
  match s with
  | EmptyString => [EmptyString]
  | String c rest =>
      let parts := split_byte sep rest in
      if Ascii.eqb c sep then EmptyString :: parts
      else match parts with
           | first :: others => String c first :: others
           | [] => [String c EmptyString]
           end
  end.

(** [s.split("\n")]. *)
Definition split_lines (s : string) : list string := split_byte "010"%char s.

(** [s.capitalize()]: the first character in upper case, the rest in lower
    case.  The function works on the UTF-8 bytes and knows the letters of
    ASCII and of Latin-1 (U+00C0..U+00FE, encoded [C3 xx]), which covers
    every description of the table [WMO]; other code points are kept. *)
Definition upper_ascii (c : ascii) : ascii :=
  let n := nat_of_ascii c in
  if ((97 <=? n) && (n <=? 122))%nat then ascii_of_nat (n - 32) else c.

Definition lower_ascii (c : ascii) : ascii :=
  let n := nat_of_ascii c in
  if ((65 <=? n) && (n <=? 90))%nat then ascii_of_nat (n + 32) else c.

Definition latin1_lead : ascii := ascii_of_nat 195.

Definition upper_latin1 (c : ascii) : ascii :=
  let n := nat_of_ascii c in
  if ((160 <=? n) && (n <=? 190) && negb (n =? 183))%nat
  then ascii_of_nat (n - 32) else c.

Definition lower_latin1 (c : ascii) : ascii :=
  let n := nat_of_ascii c in
  if ((128 <=? n) && (n <=? 158) && negb (n =? 151))%nat
  then ascii_of_nat (n + 32) else c.

Fixpoint lower (s : string) : string :=
  match s with
  | EmptyString => EmptyString
  | String c rest =>
      match rest with
      | String c' rest' =>
          if Ascii.eqb c latin1_lead
          then String c (String (lower_latin1 c') (lower rest'))
          else String (lower_ascii c) (lower rest)
      | EmptyString => String (lower_ascii c) EmptyString
      end
  end.

Definition capitalize (s : string) : string :=
  match s with
  | EmptyString => EmptyString
  | String c rest =>
      match rest with
      | String c' rest' =>
          if Ascii.eqb c latin1_lead
          then String c (String (upper_latin1 c') (lower rest'))
          else String (upper_ascii c) (lower rest)
      | EmptyString => String (upper_ascii c) EmptyString
      end
  end.

(* ===================================================================== *)
(** ** Mapping: the WMO weather-code table *)
(* ===================================================================== *)

(** The entries of the dict literal [WMO], in source order. *)
Definition WMO_items : list (Z * (string * string)) :=
  [ (0, ("☀️", "klar"));
    (1, ("🌤️", "überwiegend klar"));
    (2, ("⛅", "teilweise bewölkt"));
    (3, ("☁️", "bedeckt"));
    (45, ("🌫️", "nebel"));
    (48, ("🌫️", "reifnebel"));
    (51, ("🌦️", "niesel (leicht)"));
    (53, ("🌦️", "niesel (mäßig)"));
    (55, ("🌧️", "niesel (stark)"));
    (56, ("🌧️", "gefrierender niesel (leicht)"));
    (57, ("🌧️", "gefrierender niesel (stark)"));
    (61, ("🌦️", "regen (leicht)"));
    (63, ("🌧️", "regen (mäßig)"));
    (65, ("🌧️", "regen (stark)"));
    (66, ("🌧️", "gefrierender regen (leicht)"));
    (67, ("🌧️", "gefrierender regen (stark)"));
    (71, ("🌨️", "schnee (leicht)"));
    (73, ("🌨️", "schnee (mäßig)"));
    (75, ("❄️", "schnee (stark)"));
    (77, ("🌨️", "schneekörner"));
    (80, ("🌦️", "schauer (leicht)"));
    (81, ("🌧️", "schauer (mäßig)"));
    (82, ("🌧️", "schauer (heftig)"));
    (85, ("🌨️", "schneeschauer (leicht)"));
    (86, ("❄️", "schneeschauer (heftig)"));
    (95, ("⛈️", "gewitter"));
    (96, ("⛈️", "gewitter mit hagel (leicht)"));
    (99, ("⛈️", "gewitter mit hagel (stark)")) ].

Definition WMO : gmap Z (string * string) := list_to_map WMO_items.

(** [dict.get(key, default)]. *)
Definition dict_get `{Countable K} {V} (d : gmap K V) (k : K) (default : V) : V :=
  match d !! k with
  | Some v => v
  | None => default
  end.

(** [wmo_to_icon_desc(code)].  [int(code)] is the identity on an [int]. *)
Definition wmo_to_icon_desc (code : Z) : string * string :=
  dict_get WMO code ("❓", "unbekannt").

(* ===================================================================== *)
(** ** Values decoded from JSON, and the builtins applied to them *)
(* ===================================================================== *)

(** What [r.json()] can return, and hence what the fields of a provider's
    answer (city, region, country) can hold. *)
Inductive pyval : Type :=
| PNone
| PBool (b : bool)
| PInt (z : Z)
| PFloat (x : pyfloat)
| PStr (s : string)
| PList (l : list pyval)
| PDict (d : gmap string pyval).

(** The parts of the Python builtins that the embedding does not compute:
    parsing a decimal literal to the nearest float, converting an [int]
    beyond 2^53 to a float, and the [repr] of floats and containers. *)
Record Builtins : Type := {
  float_of_str : string -> result pyfloat;
  float_of_big_int : Z -> result pyfloat;
  repr_other : pyval -> string
}.

(** [bool(v)]. *)
Definition py_truthy (v : pyval) : bool :=
  match v with
  | PNone => false
  | PBool b => b
  | PInt z => negb (z =? 0)
  | PFloat (FFin q) => negb (Qnum q =? 0)
  | PFloat _ => true
  | PStr s => negb (String.eqb s "")
  | PList l => match l with [] => false | _ => true end
  | PDict d => negb (bool_decide (d = ∅))
  end.

(** [a or b]. *)
Definition py_or (a b : pyval) : pyval := if py_truthy a then a else b.

(** [str(v)], as an f-string field renders it. *)
Definition py_str (py : Builtins) (v : pyval) : string :=
  match v with
  | PNone => "None"
  | PBool true => "True"
  | PBool false => "False"
  | PInt z => str_int z
  | PStr s => s
  | _ => repr_other py v
  end.

(** [float(v)]. *)
Definition py_float (py : Builtins) (v : pyval) : result pyfloat :=
  match v with
  | PFloat x => Ok x
  | PInt z => if Z.abs z <=? 2 ^ 53 then Ok (FFin (inject_Z z)) else float_of_big_int py z
  | PBool b => Ok (FFin (inject_Z (if b then 1 else 0)))
  | PStr s => float_of_str py s
  | PNone =>
      Raise (Exn "TypeError"
        "float() argument must be a string or a real number, not 'NoneType'")
  | PList _ =>
      Raise (Exn "TypeError"
        "float() argument must be a string or a real number, not 'list'")
  | PDict _ =>
      Raise (Exn "TypeError"
        "float() argument must be a string or a real number, not 'dict'")
  end.

(* ===================================================================== *)
(** ** Time *)
(* ===================================================================== *)

(** Durations and instants are counted in microseconds, the resolution of
    [datetime] and [timedelta]. *)
Definition SECOND : Z := 1000000.
Definition MINUTE : Z := 60 * SECOND.
Definition HOUR : Z := 60 * MINUTE.
Definition DAY : Z := 24 * HOUR.

(** A timezone-aware [datetime] whose [tzinfo] is a fixed offset (what
    [timezone.utc] and [astimezone()] give): the wall-clock reading, in
    microseconds since 1970-01-01 00:00 of that wall clock, and the offset
    of the wall clock from UTC. *)
Record datetime : Type := {
  wall : Z;
  utcoffset : Z
}.

(** The instant a [datetime] denotes, in microseconds since the epoch.
    Aware datetimes are ordered by their instants. *)
Definition instant (d : datetime) : Z := wall d - utcoffset d.

Definition dt_ge (a b : datetime) : Prop := instant b <= instant a.

#[global] Instance dt_ge_dec a b : Decision (dt_ge a b).
Proof. unfold dt_ge. apply _. Defined.

(** A datetime in UTC at the given instant. *)
Definition utc_datetime (i : Z) : datetime := {| wall := i; utcoffset := 0 |}.

(** The clock and the time-zone database of the machine: the instant
    [datetime.now(timezone.utc)] reads, and the offset of local time from
    UTC at each instant. *)
Record Clock : Type := {
  now_instant : Z;
  local_offset : Z -> Z
}.

(** The range of [datetime]: years 1 to 9999. *)
Definition DATETIME_MIN : Z := -62135596800 * SECOND.
Definition DATETIME_MAX : Z := 253402300799 * SECOND + 999999.

Definition in_datetime_range (x : Z) : bool :=
  (DATETIME_MIN <=? x) && (x <=? DATETIME_MAX).

Definition OverflowError_date : exn := Exn "OverflowError" "date value out of range".

(** The reading of the instant of [d] on the local wall clock. *)
Definition to_local (clk : Clock) (d : datetime) : datetime :=
  let off := local_offset clk (instant d) in
  {| wall := instant d + off; utcoffset := off |}.

(** Whether [d.astimezone()] returns: [d] is first taken to UTC and then
    to local time, and both must lie within the range of [datetime]. *)
Definition localizable (clk : Clock) (d : datetime) : bool :=
  in_datetime_range (instant d) && in_datetime_range (wall (to_local clk d)).

(** [d.astimezone()]: the same instant on the local wall clock, or an
    OverflowError when that leaves the years 1 to 9999. *)
Definition astimezone (clk : Clock) (d : datetime) : result datetime :=
  if localizable clk d then Ok (to_local clk d) else Raise OverflowError_date.

(** [d.replace(minute=0, second=0, microsecond=0)]. *)
Definition replace_to_hour (d : datetime) : datetime :=
  {| wall := wall d - wall d `mod` HOUR; utcoffset := utcoffset d |}.

(** [d.strftime("%H:%M")]. *)
Definition strftime_HM (d : datetime) : string :=
  digits 2 ((wall d `div` HOUR) `mod` 24) +:+ ":" +:+ digits 2 ((wall d `div` MINUTE) `mod` 60).

(** [l[:k]]. *)
Definition py_slice_to {A} (l : list A) (k : Z) : list A :=
  if 0 <=? k then take (Z.to_nat k) l
  else take (length l - Z.to_nat (- k)) l.

(* ===================================================================== *)
(** ** The normalized weather schema *)
(* ===================================================================== *)

(** One entry of [weather_data["hourly"]], as the docstring of
    [format_hourly_forecast] has it:
    [{"time": datetime, "temp": int, "wmo": int}], with the three keys
    present, so that [h.get("wmo", -1)] and [h.get("temp")] are the stored
    values. *)
Record HourlyPoint : Type := {
  h_time : datetime;
  h_temp : Z;
  h_wmo : Z
}.

(** [current["weather"][0]]. *)
Record WeatherEntry : Type := {
  description : string;
  icon : string;
  icon_code : string
}.

(** [weather_data["current"]] in the format that [get_weather] produces,
    which [build_waybar_output] expects: every key is present and every
    number is an [int], so that [current.get(key, default)] is the stored
    value.  [weather] stands for the one-element list [current["weather"]]. *)
Record Current : Type := {
  temp : Z;
  feels_like : Z;
  humidity : Z;
  wind_speed : Z;
  wind_deg : Z;
  weather : WeatherEntry
}.

Record WeatherData : Type := {
  request_limit_reached : bool;
  current : Current;
  hourly : list HourlyPoint
}.

Record LocationInfo : Type := {
  city : pyval;
  region : pyval;
  country : pyval
}.

(** The dict handed to [json.dumps]. *)
Record WaybarOutput : Type := {
  text : string;
  alt : string;
  tooltip : string;
  class : string
}.

(* ===================================================================== *)
(** ** Tooltip: the hourly forecast *)
(* ===================================================================== *)

Section Formatter.
Context (clk : Clock).

(** [d.astimezone().replace(minute=0, second=0, microsecond=0)]: the
    start of the local hour that contains the instant of [d]. *)
Definition local_hour (d : datetime) : result datetime :=
  t ← astimezone clk d;
  mret (replace_to_hour t).

(** The condition of the comprehension that builds [future].  A
    [datetime] is always true, so [h.get("time") and ...] is its right
    operand: first the hour of the point, then the hour of [now], then
    the comparison. *)
Definition is_future (h : HourlyPoint) : result bool :=
  t ← local_hour (h_time h);
  n ← local_hour (utc_datetime (now_instant clk));
  mret (bool_decide (dt_ge t n)).

(** [[x for x in l if cond(x)]] for a condition that may raise. *)
Fixpoint filterM {A} (cond : A -> result bool) (l : list A) : result (list A) :=
  match l with
  | [] => mret []
  | x :: rest =>
      b ← cond x;
      kept ← filterM cond rest;
      mret (if b : bool then x :: kept else kept)
  end.

(** [rows], the points that are rendered. *)
Definition select_rows (hourly : list HourlyPoint) (hours : Z)
    : result (list HourlyPoint) :=
  future ← filterM is_future hourly;
  mret (match future with
        | [] => py_slice_to hourly hours
        | _ => py_slice_to future hours
        end).

(** The body of the loop: the f-string of one row. *)
Definition hourly_line (h : HourlyPoint) : result string :=
  t_local ← astimezone clk (h_time h);
  let '(icon, desc) := wmo_to_icon_desc (h_wmo h) in
  mret (strftime_HM t_local +:+ "  " +:+ icon +:+ "  " +:+ str_int (h_temp h) +:+ "°C").

(** [format_hourly_forecast(hourly, hours)]; the parameter [tz] is not
    used by the body. *)
Definition format_hourly_forecast (hourly : list HourlyPoint) (hours : Z)
    : result string :=
  match hourly with
  | [] => mret ""
  | _ =>
      rows ← select_rows hourly hours;
      lines ← mapM hourly_line rows;
      mret (join_lines ([""; ""; "Stündlich:"] ++ lines))
  end.
End Formatter.

(** The default of the parameter [hours]. *)
Definition default_hours : Z := 6.

(* ===================================================================== *)
(** ** Waybar builder *)
(* ===================================================================== *)

Section Builder.
Context (py : Builtins).

  (** [build_waybar_output(response, location_info, weather_data,
      request_limit_warning, hourly_formatter)].  The parameter [response]
      is not read.  On an [int], [round] is the identity.  The only call
      that can raise is the one of [hourly_formatter]. *)
Definition build_waybar_output {Resp : Type} (response : option Resp)
    (location_info : LocationInfo) (weather_data : WeatherData)
    (request_limit_warning : string)
    (hourly_formatter : list HourlyPoint -> result string) : result WaybarOutput :=
  let current := current weather_data in
  let temp := temp current in
  let feels_like := feels_like current in
  let humidity := humidity current in
  let wind_speed := wind_speed current in
  let description := description (weather current) in
  let icon_code := icon_code (weather current) in
  let icon := icon (weather current) in
  hourly_block ← hourly_formatter (hourly weather_data);
  let tooltip_text :=
    "📍 " +:+ py_str py (city location_info) +:+ ", "
      +:+ py_str py (region location_info) +:+ ", "
      +:+ py_str py (country location_info)
      +:+ request_limit_warning +:+ LF
      +:+ "<span size='xx-large'>" +:+ str_int temp +:+ "°C</span>" +:+ LF
      +:+ "<big>" +:+ icon +:+ " " +:+ capitalize description +:+ "</big>" +:+ LF
      +:+ "Gefühlte: " +:+ str_int feels_like +:+ "°C" +:+ LF
      +:+ "Feuchtigkeit: " +:+ str_int humidity +:+ "%" +:+ LF
      +:+ "Wind: " +:+ str_int wind_speed +:+ " km/h"
      +:+ hourly_block in
  mret {| text := icon +:+ " " +:+ str_int temp +:+ "°C";
          alt := description;
          tooltip := tooltip_text;
          class := icon_code |}.
End Builder.

(* ===================================================================== *)
(** ** Fetch and normalization *)
(* ===================================================================== *)

(** The answer of the Open-Meteo client, as far as [get_weather] reads it.
    [Current()] and [Hourly()] yield [None] for a block that is absent, and
    the next attribute access raises.  The accessor [Variables(j)] checks no
    bounds, so what the chain [Variables(j).Value()] or
    [Variables(j).ValuesAsNumpy()] gives for each [j] is part of the answer:
    a value, or an exception.  [ValuesAsNumpy()] returns a one-dimensional
    array, or the integer 0 ([None] here) for a variable without values. *)
Record CurrentBlock : Type := {
  cur_Value : nat -> result pyfloat     (* [cur.Variables(j).Value()] *)
}.

Record HourlyBlock : Type := {
  hb_Time : Z;                          (* seconds since the epoch *)
  hb_TimeEnd : Z;
  hb_Interval : Z;                      (* seconds *)
  hb_ValuesAsNumpy : nat -> result (option (list pyfloat))
                                        (* [Variables(j).ValuesAsNumpy()] *)
}.

Record Response : Type := {
  r_Current : option CurrentBlock;
  r_Hourly : option HourlyBlock
}.

(** The answer to [requests.get]: the status line, the final URL and what
    [r.json()] gives. *)
Record HttpResponse : Type := {
  status_code : Z;
  reason : string;
  url : string;
  json : result pyval
}.

(** Everything outside the process.  [requests_get k url timeout] is the
    outcome of the [k]-th call of [requests.get] of this run. *)
Record World : Type := {
  CachedSession : result unit;
  weather_api : pyfloat -> pyfloat -> string -> result (list Response);
  np_invalid_cast : Z;
  requests_get : nat -> string -> Z -> result HttpResponse
}.

Definition AttributeError_None (attr : string) : exn :=
  Exn "AttributeError" ("'NoneType' object has no attribute '" +:+ attr +:+ "'").

(** [obj.attr] where [obj] may be [None]. *)
Definition attr_of {A} (attr : string) (obj : option A) : result A :=
  match obj with
  | Some a => Ok a
  | None => Raise (AttributeError_None attr)
  end.

(** The range of [timedelta]: at most 999999999 days in magnitude. *)
Definition TIMEDELTA_MIN : Z := -999999999 * DAY.
Definition TIMEDELTA_MAX : Z := 999999999 * DAY + DAY - 1.

(** [datetime.fromtimestamp(ts, tz=timezone.utc)] for an [int]. *)
Definition fromtimestamp_utc (ts : Z) : result datetime :=
  if (DATETIME_MIN <=? ts * SECOND) && (ts * SECOND <=? DATETIME_MAX)
  then Ok (utc_datetime (ts * SECOND))
  else Raise (Exn "OverflowError" "timestamp out of range").

(** [i * td] for an [int] and a [timedelta]. *)
Definition timedelta_mul (i td : Z) : result Z :=
  if (TIMEDELTA_MIN <=? i * td) && (i * td <=? TIMEDELTA_MAX)
  then Ok (i * td)
  else Raise (Exn "OverflowError" "days must have magnitude <= 999999999").

(** [td / k] for a [timedelta] and a non-zero [int]: rounded to the
    nearest microsecond, ties to even. *)
Definition timedelta_div (td k : Z) : Z := div_round_half_even td k.

(** [d + td]. *)
Definition datetime_add (d : datetime) (td : Z) : result datetime :=
  if (DATETIME_MIN <=? wall d + td) && (wall d + td <=? DATETIME_MAX)
  then Ok {| wall := wall d + td; utcoffset := utcoffset d |}
  else Raise (Exn "OverflowError" "date value out of range").

(** [td.total_seconds() // step] for a whole number of seconds.  Below
    2^53 the float floor division is exact. *)
Definition seconds_floordiv (td step : Z) : result Z :=
  if step =? 0 then Raise (Exn "ZeroDivisionError" "float floor division by zero")
  else Ok ((td `div` SECOND) `div` step).

(** A NumPy array as [get_weather] meets it: one-dimensional, or the
    zero-dimensional array that [np.array] makes of a scalar. *)
Inductive ndarray (A : Type) : Type :=
| NdArray (items : list A)
| NdScalar (item : A).
Arguments NdArray {A} items.
Arguments NdScalar {A} item.

(** [a.size]. *)
Definition np_size {A} (a : ndarray A) : nat :=
  match a with
  | NdArray items => length items
  | NdScalar _ => 1
  end.

(** [a[i]] for a non-negative [int]. *)
Definition np_getitem {A} (a : ndarray A) (i : nat) : result A :=
  match a with
  | NdArray items =>
      match items !! i with
      | Some x => Ok x
      | None => Raise (Exn "IndexError" "index is out of bounds for axis 0")
      end
  | NdScalar _ =>
      Raise (Exn "IndexError" "too many indices for array: array is 0-dimensional")
  end.

(** [a.astype(t)], element by element. *)
Definition np_astype {A B} (cast : A -> B) (a : ndarray A) : ndarray B :=
  match a with
  | NdArray items => NdArray (cast <$> items)
  | NdScalar item => NdScalar (cast item)
  end.

(** [np.array(v).astype(float)] for what [ValuesAsNumpy()] returned. *)
Definition np_array_float (v : option (list pyfloat)) : ndarray pyfloat :=
  match v with
  | Some items => NdArray items
  | None => NdScalar (FFin 0)
  end.

(** One element of [array.astype(int)]: truncation, or the platform's
    value for NaN, infinities and numbers outside 64 bits. *)
Definition np_astype_int (invalid : Z) (x : pyfloat) : Z :=
  match x with
  | FFin q =>
      let t := Qnum q ÷ Z.pos (Qden q) in
      if (- 2 ^ 63 <=? t) && (t <? 2 ^ 63) then t else invalid
  | _ => invalid
  end.

(** The placeholder of the [except] branch. *)
Definition degraded_weather_data : WeatherData :=
  {| request_limit_reached := true;
     current :=
       {| temp := 0; feels_like := 0; humidity := 0; wind_speed := 0; wind_deg := 0;
          weather := {| description := "unbekannt"; icon := "❓"; icon_code := "-1" |} |};
     hourly := [] |}.

Section Fetch.
Context (w : World).

(** [float(cur.Variables(j).Value())]. *)
Definition current_value (cur : CurrentBlock) (j : nat) : result pyfloat :=
  cur_Value cur j.

(** [np.array(hourly_block.Variables(j).ValuesAsNumpy()).astype(float)]. *)
Definition hourly_values (hb : HourlyBlock) (j : nat) : result (ndarray pyfloat) :=
  v ← hb_ValuesAsNumpy hb j;
  mret (np_array_float v).

(** The body of the loop [for i in range(n_ok)]. *)
Definition hourly_point (start end_ : datetime) (n : Z)
    (t2m : ndarray pyfloat) (wmo : ndarray Z) (i : nat) : result HourlyPoint :=
  scaled ← timedelta_mul (Z.of_nat i) (instant end_ - instant start);
  t ← datetime_add start (timedelta_div scaled (Z.max n 1));
  x ← np_getitem t2m i;
  temp ← py_round x;
  code ← np_getitem wmo i;
  mret {| h_time := t; h_temp := temp; h_wmo := code |}.

(** The statements of the [try] block. *)
Definition fetch_and_normalize (lat lon : pyfloat) (tz : string)
    : result (WeatherData * Response) :=
  responses ← weather_api w lat lon tz;
  response ← py_index responses 0;
  (* --- Current *)
  cur ← attr_of "Variables" (r_Current response);
  temp ← current_value cur 0;
  feels_like ← current_value cur 1;
  humidity ← current_value cur 2 ≫= py_round;
  wind_speed ← current_value cur 3;
  wind_deg ← current_value cur 4;
  wmo_code ← current_value cur 5 ≫= py_int;
  let '(icon, desc) := wmo_to_icon_desc wmo_code in
  temp' ← py_round temp;
  feels_like' ← py_round feels_like;
  wind_speed' ← py_round wind_speed;
  wind_deg' ← py_round wind_deg;
  let current :=
    {| temp := temp'; feels_like := feels_like'; humidity := humidity;
       wind_speed := wind_speed'; wind_deg := wind_deg';
       weather := {| description := desc; icon := icon;
                     icon_code := str_int wmo_code |} |} in
  (* --- Hourly *)
  hourly_block ← attr_of "Time" (r_Hourly response);
  start ← fromtimestamp_utc (hb_Time hourly_block);
  end_ ← fromtimestamp_utc (hb_TimeEnd hourly_block);
  let step := hb_Interval hourly_block in
  n ← seconds_floordiv (instant end_ - instant start) step;
  t2m ← hourly_values hourly_block 0;
  wmo_raw ← hourly_values hourly_block 1;
  let wmo := np_astype (np_astype_int (np_invalid_cast w)) wmo_raw in
  let n_ok := Z.min (Z.min n (Z.of_nat (np_size t2m))) (Z.of_nat (np_size wmo)) in
  hours ← mapM (hourly_point start end_ n t2m wmo) (seq 0 (Z.to_nat n_ok));
  mret ({| request_limit_reached := false; current := current; hourly := hours |},
        response).

(** [get_weather(lat, lon, place_name, tz, region, country)].  The
    session with cache and retry is built before the [try] block. *)
Definition get_weather (lat lon : pyfloat) (place_name : pyval) (tz : string)
    (region country : pyval)
    : result (WeatherData * LocationInfo * option Response) :=
  _ ← CachedSession w;
  let city := py_or place_name (PStr (fmt_f 2 lat +:+ "," +:+ fmt_f 2 lon)) in
  let location_info := {| city := city; region := region; country := country |} in
  try_except
    ('(weather_data, response) ← fetch_and_normalize lat lon tz;
     mret (weather_data, location_info, Some response))
    (fun _ => mret (degraded_weather_data, location_info, None)).
End Fetch.

(** The default of the parameter [tz]. *)
Definition default_tz : string := "Europe/Berlin".

(* ===================================================================== *)
(** ** get_ip_location *)
(* ===================================================================== *)

(** [type(v).__name__]. *)
Definition type_name (v : pyval) : string :=
  match v with
  | PNone => "NoneType"
  | PBool _ => "bool"
  | PInt _ => "int"
  | PFloat _ => "float"
  | PStr _ => "str"
  | PList _ => "list"
  | PDict _ => "dict"
  end.

(** [d[key]] for a string key; the messages are those of CPython 3.12. *)
Definition py_getitem (d : pyval) (key : string) : result pyval :=
  match d with
  | PDict m =>
      match m !! key with
      | Some v => Ok v
      | None => Raise (Exn "KeyError" ("'" +:+ key +:+ "'"))
      end
  | PList _ =>
      Raise (Exn "TypeError" "list indices must be integers or slices, not str")
  | PStr _ =>
      Raise (Exn "TypeError" "string indices must be integers, not 'str'")
  | _ =>
      Raise (Exn "TypeError" ("'" +:+ type_name d +:+ "' object is not subscriptable"))
  end.

(** [d.get(key)]. *)
Definition py_get (d : pyval) (key : string) : result pyval :=
  match d with
  | PDict m => Ok (dict_get m key PNone)
  | _ =>
      Raise (Exn "AttributeError"
               ("'" +:+ type_name d +:+ "' object has no attribute 'get'"))
  end.

(** [s.split(",")] on the bytes of [s]; the comma is one byte. *)
Definition split_comma (s : string) : list string := split_byte ","%char s.

(** [v.split(",")]. *)
Definition py_split_comma (v : pyval) : result (list string) :=
  match v with
  | PStr s => Ok (split_comma s)
  | _ =>
      Raise (Exn "AttributeError"
               ("'" +:+ type_name v +:+ "' object has no attribute 'split'"))
  end.

(** The tuple [(lat, lon, city, region, country)]. *)
Definition IpLocation : Type := pyfloat * pyfloat * pyval * pyval * pyval.

(** [r.raise_for_status()]. *)
Definition raise_for_status (r : HttpResponse) : result unit :=
  let code := status_code r in
  let msg kind :=
    str_int code +:+ " " +:+ kind +:+ " Error: " +:+ reason r +:+ " for url: " +:+ url r in
  if (400 <=? code) && (code <? 500) then Raise (Exn "HTTPError" (msg "Client"))
  else if (500 <=? code) && (code <? 600) then Raise (Exn "HTTPError" (msg "Server"))
  else Ok ().

Section Geolocation.
Context (py : Builtins) (w : World).

(** The three field-extraction lambdas. *)
Definition parse_ipapi (d : pyval) : result IpLocation :=
  lat ← py_getitem d "latitude" ≫= py_float py;
  lon ← py_getitem d "longitude" ≫= py_float py;
  city ← py_get d "city";
  region ← py_get d "region";
  country_name ← py_get d "country_name";
  country ← (if py_truthy country_name then Ok country_name else py_get d "country");
  mret (lat, lon, city, region, country).

Definition parse_ipinfo (d : pyval) : result IpLocation :=
  loc ← py_getitem d "loc";
  parts ← py_split_comma loc;
  lat ← py_index parts 0 ≫= (fun s => py_float py (PStr s));
  loc' ← py_getitem d "loc";
  parts' ← py_split_comma loc';
  lon ← py_index parts' 1 ≫= (fun s => py_float py (PStr s));
  city ← py_get d "city";
  region ← py_get d "region";
  country ← py_get d "country";
  mret (lat, lon, city, region, country).

Definition parse_ip_api (d : pyval) : result IpLocation :=
  lat ← py_getitem d "lat" ≫= py_float py;
  lon ← py_getitem d "lon" ≫= py_float py;
  city ← py_get d "city";
  regionName ← py_get d "regionName";
  region ← (if py_truthy regionName then Ok regionName else py_get d "region");
  country ← py_get d "country";
  mret (lat, lon, city, region, country).

Definition providers : list (string * (pyval -> result IpLocation)) :=
  [ ("https://ipapi.co/json/", parse_ipapi);
    ("https://ipinfo.io/json", parse_ipinfo);
    ("http://ip-api.com/json", parse_ip_api) ].

(** The body of the [try] block of the loop, for the [k]-th request of the
    run. *)
Definition try_provider (timeout : Z) (k : nat)
    (provider : string * (pyval -> result IpLocation)) : result IpLocation :=
  let '(url, parser) := provider in
  r ← requests_get w k url timeout;
  _ ← raise_for_status r;
  data ← json r;
  parser data.

(** The loop [for url, parser in providers] with its [except] clause, and
    the [raise] after it.  [last_err] is [None] before the first failure. *)
Fixpoint try_providers (timeout : Z) (ps : list (string * (pyval -> result IpLocation)))
    (last_err : option exn) (k : nat) : result IpLocation * nat :=
  match ps with
  | [] =>
      let shown := match last_err with Some e => exn_str e | None => "None" end in
      (Raise (Exn "RuntimeError" ("IP-Geolokation fehlgeschlagen: " +:+ shown)), k)
  | p :: rest =>
      match try_provider timeout k p with
      | Ok loc => (Ok loc, S k)
      | Raise e => try_providers timeout rest (Some e) (S k)
      end
  end.

(** [get_ip_location(timeout)], started when [k] requests have been made;
    returns the outcome and the number of requests made so far. *)
Definition get_ip_location (timeout : Z) (k : nat) : result IpLocation * nat :=
  try_providers timeout providers None k.
End Geolocation.

(** The default of the parameter [timeout]. *)
Definition default_timeout : Z := 4.

(* ===================================================================== *)
(** ** main *)
(* ===================================================================== *)

(** The escape of one character by [json.dumps(..., ensure_ascii=False)]:
    the quote, the backslash and the control characters are escaped, every
    other byte is copied. *)
Definition hex_digit (n : nat) : string :=
  String (ascii_of_nat (if (n <? 10)%nat then 48 + n else 87 + n)) EmptyString.

Definition json_escape_char (c : ascii) : string :=
  let n := nat_of_ascii c in
  if (n =? 34)%nat then "\" +:+ DQUOTE
  else if (n =? 92)%nat then "\\"
  else if (n =? 10)%nat then "\n"
  else if (n =? 13)%nat then "\r"
  else if (n =? 9)%nat then "\t"
  else if (n =? 8)%nat then "\b"
  else if (n =? 12)%nat then "\f"
  else if (n <? 32)%nat then "\u00" +:+ hex_digit (n / 16) +:+ hex_digit (n mod 16)
  else String c EmptyString.

Fixpoint json_escape (s : string) : string :=
  match s with
  | EmptyString => EmptyString
  | String c rest => json_escape_char c +:+ json_escape rest
  end.

Definition json_string (s : string) : string := DQUOTE +:+ json_escape s +:+ DQUOTE.

(** [json.dumps(output, ensure_ascii=False)] for the dict of
    [build_waybar_output], in the insertion order of its keys. *)
Definition json_dumps (o : WaybarOutput) : string :=
  "{" +:+ json_string "text" +:+ ": " +:+ json_string (text o) +:+ ", "
      +:+ json_string "alt" +:+ ": " +:+ json_string (alt o) +:+ ", "
      +:+ json_string "tooltip" +:+ ": " +:+ json_string (tooltip o) +:+ ", "
      +:+ json_string "class" +:+ ": " +:+ json_string (class o) +:+ "}".

(** The two streams of the process; each element is the text of one call
    of [print], which ends it with a line feed. *)
Record Streams : Type := {
  stdout : list string;
  stderr : list string
}.

Definition print (s : string) (io : Streams) : Streams :=
  {| stdout := stdout io ++ [s]; stderr := stderr io |}.

Definition limit_warning : string :=
  LF +:+ "⚠️ API request limit reached - showing cached/offline data".

Section Main.
Context (py : Builtins) (w : World) (clk : Clock).

(** The f-string of the second [print]. *)
Definition location_line (loc : IpLocation) : string :=
  let '(lat, lon, city, region, country) := loc in
  "📍 " +:+ py_str py city +:+ ", " +:+ py_str py region +:+ ", " +:+ py_str py country
    +:+ " → " +:+ fmt_f 6 lat +:+ ", " +:+ fmt_f 6 lon.

(** [main()]: the outcome and what was printed.  The first lookup of the
    position and the fetch come before the first [print]; so does the call
    of [build_waybar_output], which stands outside any [try].  The second
    lookup and the second [print] are guarded by [try]. *)
Definition main : result unit * Streams :=
  let io := {| stdout := []; stderr := [] |} in
  match get_ip_location py w default_timeout 0 with
  | (Raise e, _) => (Raise e, io)
  | (Ok (lat, lon, city, region, country), k) =>
      match get_weather w lat lon city default_tz region country with
      | Raise e => (Raise e, io)
      | Ok (weather_data, location_info, response) =>
          let request_limit_warning :=
            if request_limit_reached weather_data then limit_warning else "" in
          match build_waybar_output py response location_info weather_data
                  request_limit_warning
                  (fun hourly => format_hourly_forecast clk hourly default_hours) with
          | Raise e => (Raise e, io)
          | Ok output =>
              let io := print (json_dumps output) io in
              match get_ip_location py w default_timeout k with
              | (Ok loc, _) => (Ok (), print (location_line loc) io)
              | (Raise e, _) => (Ok (), print ("Fehler: " +:+ exn_str e) io)
              end
          end
      end
  end.
End Main.

(* ===================================================================== *)
(** * Properties *)
(* ===================================================================== *)

(** Decide a closed decidable proposition by evaluation. *)
Ltac by_compute :=
  lazymatch goal with
  | |- ?P => refine (@bool_decide_unpack P _ _); vm_compute; exact I
  end.

(** ** The weather-code table *)

Lemma WMO_items_NoDup : NoDup (WMO_items.*1).
Proof. by_compute. Qed.

Lemma WMO_lookup_item code p : (code, p) ∈ WMO_items -> WMO !! code = Some p.
Proof. apply elem_of_list_to_map_1, WMO_items_NoDup. Qed.

Lemma WMO_lookup_absent code : code ∉ WMO_items.*1 -> WMO !! code = None.
Proof. apply not_elem_of_list_to_map_1. Qed.

Lemma WMO_lookup_Some code p : WMO !! code = Some p -> (code, p) ∈ WMO_items.
Proof. apply elem_of_list_to_map_2. Qed.

(** C3, as the table has it.  [wmo_to_icon_desc] is defined on every
    integer; on a code of the table it returns the pair listed for that
    code, and on every other integer it returns the one fallback pair, the
    question-mark icon with the description "unbekannt". *)
Theorem wmo_to_icon_desc_table_or_fallback (code : Z) :
  (forall p, (code, p) ∈ WMO_items -> wmo_to_icon_desc code = p) /\
  (code ∉ WMO_items.*1 -> wmo_to_icon_desc code = ("❓", "unbekannt")).
Proof.
  unfold wmo_to_icon_desc, dict_get. split.
  - intros p Hp. now rewrite (WMO_lookup_item _ _ Hp).
  - intros Hn. now rewrite (WMO_lookup_absent _ Hn).
Qed.

Lemma wmo_to_icon_desc_table_or_fallback_witness :
  wmo_to_icon_desc 63 = ("🌧️", "regen (mäßig)") /\
  wmo_to_icon_desc 4 = ("❓", "unbekannt").
Proof.
  split.
  - apply (proj1 (wmo_to_icon_desc_table_or_fallback 63)). by_compute.
  - apply (proj2 (wmo_to_icon_desc_table_or_fallback 4)). by_compute.
Defined.

(** C3 as worded fails: code 4 is not in the table, and the pair returned
    for it does not carry the description "unknown". *)
Lemma wmo_fallback_description_not_unknown :
  (4 ∉ WMO_items.*1) /\ wmo_to_icon_desc 4 <> ("❓", "unknown").
Proof. split; [by_compute | discriminate]. Qed.

(** One code of each icon family. *)
Example wmo_icon_families :
  map wmo_to_icon_desc [0; 1; 2; 3; 45; 51; 65; 71; 75; 95] =
  [ ("☀️", "klar"); ("🌤️", "überwiegend klar"); ("⛅", "teilweise bewölkt");
    ("☁️", "bedeckt"); ("🌫️", "nebel"); ("🌦️", "niesel (leicht)");
    ("🌧️", "regen (stark)"); ("🌨️", "schnee (leicht)"); ("❄️", "schnee (stark)");
    ("⛈️", "gewitter") ].
Proof. reflexivity. Qed.

(** ** Strings: bytes that do not occur, and splitting what was joined *)

Fixpoint has_byte (c : ascii) (s : string) : bool :=
  match s with
  | EmptyString => false
  | String c' rest => Ascii.eqb c' c || has_byte c rest
  end.

Lemma has_byte_app c a b : has_byte c (a +:+ b) = has_byte c a || has_byte c b.
Proof.
  induction a as [|x a IH]; simpl; [reflexivity|].
  rewrite IH. apply orb_assoc.
Qed.

Lemma split_byte_absent sep s : has_byte sep s = false -> split_byte sep s = [s].
Proof.
  induction s as [|c s IH]; simpl; [reflexivity|].
  intros [Hc Hs]%orb_false_elim. rewrite Hc, (IH Hs). reflexivity.
Qed.

Lemma split_byte_app_sep sep a b :
  has_byte sep a = false ->
  split_byte sep (a +:+ String sep b) = a :: split_byte sep b.
Proof.
  induction a as [|c a IH]; simpl.
  - intros _. now rewrite Ascii.eqb_refl.
  - intros [Hc Ha]%orb_false_elim. rewrite Hc, (IH Ha). reflexivity.
Qed.

Lemma split_byte_concat sep (ls : list string) :
  ls <> [] ->
  Forall (fun l => has_byte sep l = false) ls ->
  split_byte sep (String.concat (String sep EmptyString) ls) = ls.
Proof.
  induction ls as [|x [|y ls] IH]; intros Hne Hall; [congruence | |].
  - simpl. apply split_byte_absent. now inversion Hall.
  - inversion Hall as [|? ? Hx Hrest]; subst.
    change (String.concat (String sep EmptyString) (x :: y :: ls))
      with (x +:+ String sep (String.concat (String sep EmptyString) (y :: ls))).
    rewrite (split_byte_app_sep _ _ _ Hx). f_equal. now apply IH.
Qed.

Lemma split_lines_join_lines (ls : list string) :
  ls <> [] ->
  Forall (fun l => has_byte "010"%char l = false) ls ->
  split_lines (join_lines ls) = ls.
Proof. apply split_byte_concat. Qed.

(** The characters of [str(n)] are digits and the minus sign. *)
Definition is_numeral_char (c : ascii) : bool :=
  let n := nat_of_ascii c in
  ((48 <=? n) && (n <=? 57))%nat || (n =? 45)%nat.

Lemma has_byte_string_of_uint c (d : Decimal.uint) :
  is_numeral_char c = false -> has_byte c (NilEmpty.string_of_uint d) = false.
Proof.
  intros Hc.
  induction d; simpl; rewrite ?IHd; try reflexivity;
    destruct c as [[] [] [] [] [] [] [] []]; try reflexivity; discriminate Hc.
Qed.

Lemma has_byte_cons c a s : has_byte c (String a s) = Ascii.eqb a c || has_byte c s.
Proof. reflexivity. Qed.

Lemma has_byte_string_of_uint0 c (d : Decimal.uint) :
  is_numeral_char c = false -> has_byte c (NilZero.string_of_uint d) = false.
Proof.
  intros Hc. destruct d; try apply (has_byte_string_of_uint c _ Hc).
  destruct c as [[] [] [] [] [] [] [] []]; try reflexivity; discriminate Hc.
Qed.

Lemma has_byte_str_int c z : is_numeral_char c = false -> has_byte c (str_int z) = false.
Proof.
  intros Hc. unfold str_int, NilZero.string_of_int.
  destruct (Z.to_int z) as [d|d]; [now apply has_byte_string_of_uint0|].
  rewrite has_byte_cons, has_byte_string_of_uint0 by exact Hc.
  destruct c as [[] [] [] [] [] [] [] []]; try reflexivity; discriminate Hc.
Qed.

Lemma has_byte_zeros c k :
  is_numeral_char c = false -> has_byte c (String.concat "" (replicate k "0")) = false.
Proof.
  intros Hc.
  assert (H0 : has_byte c "0" = false).
  { destruct c as [[] [] [] [] [] [] [] []]; try reflexivity; discriminate Hc. }
  induction k as [|[|k] IH]; [reflexivity | exact H0 |].
  change (has_byte c ("0" +:+ "" +:+ String.concat "" (replicate (S k) "0")) = false).
  rewrite !has_byte_app, H0, IH. reflexivity.
Qed.

Lemma has_byte_digits c width n :
  is_numeral_char c = false -> has_byte c (digits width n) = false.
Proof.
  intros Hc. unfold digits.
  now rewrite has_byte_app, has_byte_zeros, has_byte_str_int.
Qed.

Lemma has_LF_strftime_HM d : has_byte "010"%char (strftime_HM d) = false.
Proof.
  unfold strftime_HM. now rewrite !has_byte_app, !has_byte_digits.
Qed.

Lemma has_LF_wmo_icon code : has_byte "010"%char (wmo_to_icon_desc code).1 = false.
Proof.
  unfold wmo_to_icon_desc, dict_get.
  destruct (WMO !! code) as [p|] eqn:E; [|reflexivity].
  apply WMO_lookup_Some in E.
  assert (Hall : Forall (fun kv => has_byte "010"%char kv.2.1 = false) WMO_items)
    by by_compute.
  rewrite Forall_forall in Hall. exact (Hall _ E).
Qed.

(** ** Computations that return *)

Lemma result_bind_Ok {A B} (m : result A) (k : A -> result B) (b : B) :
  m ≫= k = Ok b -> exists a, m = Ok a /\ k a = Ok b.
Proof. destruct m as [a|e]; [|discriminate]. intros H. now exists a. Qed.

Tactic Notation "inv_bind" hyp(H) "as" ident(a) ident(E) :=
  apply result_bind_Ok in H as (a & E & H).

Lemma py_index_Ok {A} (l : list A) i a : py_index l i = Ok a -> l !! i = Some a.
Proof. unfold py_index. destruct (l !! i); [|discriminate]. now intros [= ->]. Qed.

Lemma attr_of_Ok {A} attr (o : option A) a : attr_of attr o = Ok a -> o = Some a.
Proof. destruct o; [|discriminate]. now intros [= ->]. Qed.

Lemma mapM_Ok_length {A B} (f : A -> result B) (l : list A) (r : list B) :
  mapM f l = Ok r -> length r = length l.
Proof.
  revert r. induction l as [|x l IH]; intros r H; simpl in H.
  - now injection H as <-.
  - inv_bind H as y Ey. inv_bind H as r' Er. injection H as <-.
    simpl. f_equal. now apply IH.
Qed.

Lemma mapM_Ok_lookup {A B} (f : A -> result B) (l : list A) (r : list B) i x :
  mapM f l = Ok r -> l !! i = Some x -> exists y, r !! i = Some y /\ f x = Ok y.
Proof.
  revert r i. induction l as [|x0 l IH]; intros r i H Hi; [discriminate|].
  simpl in H. inv_bind H as y Ey. inv_bind H as r' Er. injection H as <-.
  destruct i as [|i]; simpl in Hi.
  - injection Hi as ->. eauto.
  - simpl. eauto.
Qed.

Lemma fromtimestamp_utc_Ok ts d :
  fromtimestamp_utc ts = Ok d -> instant d = ts * SECOND.
Proof.
  unfold fromtimestamp_utc. destruct (_ && _); [|discriminate].
  intros [= <-]. unfold instant, utc_datetime. simpl. lia.
Qed.

Lemma seconds_floordiv_Ok td step n :
  seconds_floordiv (td * SECOND) step = Ok n -> step <> 0 /\ n = td `div` step.
Proof.
  unfold seconds_floordiv. destruct (step =? 0) eqn:E; [discriminate|].
  intros [= <-]. split; [lia|]. f_equal. apply Z.div_mul. discriminate.
Qed.



Lemma mapM_Ok_map {A B} (f : A -> result B) (g : A -> B) (l : list A) :
  Forall (fun x => f x = Ok (g x)) l -> mapM f l = Ok (g <$> l).
Proof.
  induction 1 as [|x l Hx _ IH]; [reflexivity|].
  cbn [mapM]. rewrite Hx. cbn [mbind result_bind]. rewrite IH. reflexivity.
Qed.


(** ** The Waybar builder on the Berlin example *)

Definition berlin_location : LocationInfo :=
  {| city := PStr "Berlin"; region := PStr "Berlin"; country := PStr "Germany" |}.

(** The snapshot of the example; the builder reads neither the wind
    direction nor the flag. *)
Definition berlin_weather (flag : bool) (deg : Z) : WeatherData :=
  {| request_limit_reached := flag;
     current :=
       {| temp := 21; feels_like := 19; humidity := 55; wind_speed := 12; wind_deg := deg;
          weather := {| description := "klar"; icon := "☀️"; icon_code := "0" |} |};
     hourly := [] |}.

(** C4.  For the Berlin example with no warning and no hourly points the
    builder returns, at any time and in any zone, the text "☀️ 21°C", the
    alt "klar", the class "0" and a tooltip that is exactly the six lines
    of the specification, in their order, with nothing after the wind
    line: no hourly section. *)
Theorem build_waybar_output_berlin (py : Builtins) (clk : Clock)
    (response : option Response) (flag : bool) (deg : Z) :
  build_waybar_output py response berlin_location (berlin_weather flag deg) ""
    (fun hourly => format_hourly_forecast clk hourly default_hours) =
  Ok {| text := "☀️ 21°C";
        alt := "klar";
        tooltip :=
          join_lines [ "📍 Berlin, Berlin, Germany";
                       "<span size='xx-large'>21°C</span>";
                       "<big>☀️ Klar</big>";
                       "Gefühlte: 19°C";
                       "Feuchtigkeit: 55%";
                       "Wind: 12 km/h" ];
        class := "0" |}.
Proof. reflexivity. Qed.

(** ** The hourly block *)

Lemma astimezone_Ok clk d :
  localizable clk d = true -> astimezone clk d = Ok (to_local clk d).
Proof. intros H. unfold astimezone. now rewrite H. Qed.

Lemma astimezone_Ok_inv clk d t :
  astimezone clk d = Ok t -> localizable clk d = true /\ t = to_local clk d.
Proof.
  unfold astimezone. destruct (localizable clk d); [|discriminate].
  now intros [= <-].
Qed.


(** Following the specification's words: a timestamp rounded down to the
    hour, in local time; the points that are not earlier than the current
    hour; the first [hours] of them, or of all points if there is none. *)
Definition spec_hour_floor (clk : Clock) (i : Z) : Z :=
  let off := local_offset clk i in
  let local := i + off in
  local - local `mod` HOUR - off.

Definition spec_not_past (clk : Clock) (h : HourlyPoint) : Prop :=
  spec_hour_floor clk (now_instant clk) <= spec_hour_floor clk (instant (h_time h)).

#[global] Instance spec_not_past_dec clk h : Decision (spec_not_past clk h).
Proof. unfold spec_not_past. apply _. Defined.

Definition spec_rows (clk : Clock) (hourly : list HourlyPoint) (hours : nat)
    : list HourlyPoint :=
  let qualifying := filter (spec_not_past clk) hourly in
  if decide (qualifying = []) then take hours hourly else take hours qualifying.

(** The current time as [datetime.now(timezone.utc)] gives it. *)
Definition now_utc (clk : Clock) : datetime := utc_datetime (now_instant clk).

(** The formatter can convert every point and the current time to local
    time: all of them stay within the years 1 to 9999. *)
Definition formattable (clk : Clock) (hourly : list HourlyPoint) : Prop :=
  Forall (fun h => localizable clk (h_time h) = true) hourly /\
  localizable clk (now_utc clk) = true.

(** The text of the row of [h], given its local time. *)
Definition hourly_line_text (clk : Clock) (h : HourlyPoint) : string :=
  strftime_HM (to_local clk (h_time h)) +:+ "  " +:+ (wmo_to_icon_desc (h_wmo h)).1
    +:+ "  " +:+ str_int (h_temp h) +:+ "°C".

(** The rows, given that every conversion to local time succeeds. *)
Definition rows_value (clk : Clock) (hourly : list HourlyPoint) (hours : Z)
    : list HourlyPoint :=
  match filter (spec_not_past clk) hourly with
  | [] => py_slice_to hourly hours
  | future => py_slice_to future hours
  end.

Lemma instant_hour_of_local clk d :
  instant (replace_to_hour (to_local clk d)) = spec_hour_floor clk (instant d).
Proof. reflexivity. Qed.

Lemma dt_ge_local_hours clk h :
  dt_ge (replace_to_hour (to_local clk (h_time h)))
        (replace_to_hour (to_local clk (now_utc clk))) <-> spec_not_past clk h.
Proof.
  unfold dt_ge, spec_not_past. rewrite !instant_hour_of_local.
  unfold now_utc, utc_datetime, instant at 1. cbn [wall utcoffset].
  now rewrite Z.sub_0_r.
Qed.

Lemma is_future_Ok clk h :
  localizable clk (h_time h) = true ->
  localizable clk (now_utc clk) = true ->
  is_future clk h = Ok (bool_decide (spec_not_past clk h)).
Proof.
  intros Hh Hn. unfold is_future, local_hour. fold (now_utc clk).
  rewrite (astimezone_Ok _ _ Hh), (astimezone_Ok _ _ Hn).
  cbn [mbind result_bind mret result_ret]. f_equal.
  apply bool_decide_ext, dt_ge_local_hours.
Qed.

Lemma is_future_Ok_inv clk h b :
  is_future clk h = Ok b ->
  localizable clk (h_time h) = true /\ localizable clk (now_utc clk) = true /\
  b = bool_decide (spec_not_past clk h).
Proof.
  intros H0. pose proof H0 as H. unfold is_future, local_hour in H.
  fold (now_utc clk) in H.
  inv_bind H as t Et. inv_bind Et as t' Et'. apply astimezone_Ok_inv in Et' as [Hh _].
  inv_bind H as n En. inv_bind En as n' En'. apply astimezone_Ok_inv in En' as [Hn _].
  split; [exact Hh|]. split; [exact Hn|].
  rewrite (is_future_Ok clk h Hh Hn) in H0. now injection H0 as <-.
Qed.


Lemma filterM_Ok {A} (cond : A -> result bool) (P : A -> Prop)
    `{forall x, Decision (P x)} (l : list A) :
  Forall (fun x => cond x = Ok (bool_decide (P x))) l ->
  filterM cond l = Ok (filter P l).
Proof.
  induction 1 as [|x l Hx _ IH]; [reflexivity|].
  cbn [filterM]. rewrite Hx, IH. cbn [mbind result_bind mret result_ret].
  rewrite filter_cons. now destruct (decide (P x)) as [HP|HP];
    [rewrite (bool_decide_eq_true_2 _ HP) | rewrite (bool_decide_eq_false_2 _ HP)].
Qed.

Lemma filterM_Ok_inv {A} (cond : A -> result bool) (l r : list A) :
  filterM cond l = Ok r -> Forall (fun x => exists b, cond x = Ok b) l.
Proof.
  revert r. induction l as [|x l IH]; intros r H; [constructor|].
  cbn [filterM] in H. inv_bind H as b Eb. inv_bind H as kept Ek.
  constructor; [eauto | eapply IH; eauto].
Qed.


Lemma select_rows_Ok clk hourly hours :
  formattable clk hourly ->
  select_rows clk hourly hours = Ok (rows_value clk hourly hours).
Proof.
  intros [Hall Hnow]. unfold select_rows, rows_value.
  rewrite (filterM_Ok (is_future clk) (spec_not_past clk)).
  - cbn [mbind result_bind mret result_ret].
    now destruct (filter (spec_not_past clk) hourly).
  - eapply Forall_impl; [exact Hall|]. intros h Hh. now apply is_future_Ok.
Qed.

Lemma select_rows_Ok_inv clk hourly hours rows :
  select_rows clk hourly hours = Ok rows ->
  rows = rows_value clk hourly hours /\ (hourly <> [] -> formattable clk hourly).
Proof.
  intros H. unfold select_rows in H. inv_bind H as future Ef.
  pose proof (filterM_Ok_inv _ _ _ Ef) as Hall.
  assert (Hform : hourly <> [] -> formattable clk hourly).
  { intros Hne. split.
    - eapply Forall_impl; [exact Hall|]. intros h [b Hb].
      now apply is_future_Ok_inv in Hb as (Hh & _ & _).
    - destruct hourly as [|h0 rest]; [congruence|].
      apply Forall_cons in Hall as [[b Hb] _].
      now apply is_future_Ok_inv in Hb as (_ & Hn & _). }
  split; [|exact Hform].
  destruct hourly as [|h0 rest].
  - cbn [filterM mret result_ret] in Ef. injection Ef as <-.
    cbn [mret result_ret] in H. now injection H as <-.
  - pose proof (select_rows_Ok clk (h0 :: rest) hours (Hform ltac:(discriminate))) as Hok.
    unfold select_rows in Hok. rewrite Ef in Hok.
    cbn [mbind result_bind] in Hok. congruence.
Qed.

Lemma rows_value_sublist clk hourly hours : rows_value clk hourly hours `sublist_of` hourly.
Proof.
  unfold rows_value, py_slice_to.
  destruct (filter (spec_not_past clk) hourly) eqn:E.
  - destruct (0 <=? hours); apply sublist_take.
  - rewrite <- E. etrans; [|apply (sublist_filter (spec_not_past clk))].
    destruct (0 <=? hours); apply sublist_take.
Qed.

Lemma rows_value_spec clk hourly hours :
  0 <= hours -> rows_value clk hourly hours = spec_rows clk hourly (Z.to_nat hours).
Proof.
  intros Hh. unfold rows_value, spec_rows, py_slice_to.
  destruct (0 <=? hours) eqn:E; [|lia].
  destruct (filter (spec_not_past clk) hourly); [reflexivity|].
  rewrite decide_False by discriminate. reflexivity.
Qed.

Lemma hourly_line_Ok clk h :
  localizable clk (h_time h) = true -> hourly_line clk h = Ok (hourly_line_text clk h).
Proof.
  intros Hh. unfold hourly_line, hourly_line_text. rewrite (astimezone_Ok _ _ Hh).
  cbn [mbind result_bind]. now destruct (wmo_to_icon_desc (h_wmo h)).
Qed.


Lemma has_LF_hourly_line_text clk h :
  has_byte "010"%char (hourly_line_text clk h) = false.
Proof.
  unfold hourly_line_text. rewrite !has_byte_app.
  now rewrite has_LF_strftime_HM, has_LF_wmo_icon, has_byte_str_int.
Qed.

(** What the formatter returns for a non-empty list, when it returns. *)
Lemma format_hourly_forecast_Ok clk hourly hours :
  hourly <> [] -> formattable clk hourly ->
  format_hourly_forecast clk hourly hours =
  Ok (join_lines ([""; ""; "Stündlich:"]
                    ++ map (hourly_line_text clk) (rows_value clk hourly hours))).
Proof.
  intros Hne Hform. unfold format_hourly_forecast.
  destruct hourly as [|h0 rest]; [congruence|].
  rewrite (select_rows_Ok _ _ _ Hform). cbn [mbind result_bind].
  rewrite (mapM_Ok_map (hourly_line clk) (hourly_line_text clk)); [reflexivity|].
  apply Forall_forall. intros h Hin. apply hourly_line_Ok.
  destruct Hform as [Hall _]. rewrite Forall_forall in Hall. apply Hall.
  eapply elem_of_sublist; [exact Hin | apply rows_value_sublist].
Qed.

Lemma format_hourly_forecast_Ok_inv clk hourly hours block :
  hourly <> [] ->
  format_hourly_forecast clk hourly hours = Ok block ->
  formattable clk hourly /\
  select_rows clk hourly hours = Ok (rows_value clk hourly hours) /\
  block = join_lines ([""; ""; "Stündlich:"]
                        ++ map (hourly_line_text clk) (rows_value clk hourly hours)).
Proof.
  intros Hne H.
  assert (Hform : formattable clk hourly).
  { unfold format_hourly_forecast in H. destruct hourly as [|h0 rest]; [congruence|].
    inv_bind H as rows Er. apply select_rows_Ok_inv in Er as [_ Hf].
    apply Hf. discriminate. }
  split; [exact Hform|]. split; [now apply select_rows_Ok|].
  rewrite (format_hourly_forecast_Ok _ _ _ Hne Hform) in H. now injection H as <-.
Qed.


Lemma format_hourly_forecast_lines clk hourly hours block :
  hourly <> [] ->
  format_hourly_forecast clk hourly hours = Ok block ->
  split_lines block =
  [""; ""; "Stündlich:"] ++ map (hourly_line_text clk) (rows_value clk hourly hours).
Proof.
  intros Hne H. apply format_hourly_forecast_Ok_inv in H as (_ & _ & ->); [|exact Hne].
  apply split_lines_join_lines; [discriminate|].
  repeat (apply Forall_cons_2; [reflexivity|]).
  apply Forall_forall. intros ln [pt [-> _]]%list_elem_of_fmap.
  apply has_LF_hourly_line_text.
Qed.

(** The clock of the example: local time is one hour ahead of UTC and it
    is 14:25 local; the points sit at 13:00, 14:00, 15:00 and 16:00 local. *)
Definition clock_1425 : Clock :=
  {| now_instant := 13 * HOUR + 25 * MINUTE; local_offset := fun _ => HOUR |}.

Definition point_at (utc_hour temp wmo : Z) : HourlyPoint :=
  {| h_time := utc_datetime (utc_hour * HOUR); h_temp := temp; h_wmo := wmo |}.

Definition points_13_to_16 : list HourlyPoint :=
  [ point_at 12 20 0; point_at 13 21 1; point_at 14 22 2; point_at 15 23 3 ].

Lemma points_13_to_16_formattable : formattable clock_1425 points_13_to_16.
Proof. split; [repeat constructor | reflexivity]. Qed.

(** C6.  An empty list gives the empty string.  For a non-empty list and a
    non-negative [hours] the formatter returns whenever every point and
    the current time have a local time within the years 1 to 9999, and
    whenever it returns, the rows that are rendered after the heading are
    the first [hours] of the points whose local hour is not earlier than
    the current local hour, or the first [hours] of all points when no
    point qualifies. *)
Theorem format_hourly_forecast_selection (clk : Clock)
    (hourly : list HourlyPoint) (hours : Z) :
  0 <= hours ->
  format_hourly_forecast clk [] hours = Ok "" /\
  (hourly <> [] -> formattable clk hourly ->
   exists block, format_hourly_forecast clk hourly hours = Ok block) /\
  (forall block,
     hourly <> [] -> format_hourly_forecast clk hourly hours = Ok block ->
     drop 3 (split_lines block) =
     map (hourly_line_text clk) (spec_rows clk hourly (Z.to_nat hours))) /\
  (Exists (spec_not_past clk) hourly ->
   spec_rows clk hourly (Z.to_nat hours) =
   take (Z.to_nat hours) (filter (spec_not_past clk) hourly)) /\
  (Forall (fun h => ~ spec_not_past clk h) hourly ->
   spec_rows clk hourly (Z.to_nat hours) = take (Z.to_nat hours) hourly).
Proof.
  intros Hh. split; [reflexivity|]. split; [|split; [|split]].
  - intros Hne Hform. rewrite (format_hourly_forecast_Ok _ _ _ Hne Hform). eauto.
  - intros block Hne H. rewrite (format_hourly_forecast_lines _ _ _ _ Hne H).
    now rewrite (rows_value_spec _ _ _ Hh).
  - intros Hex. unfold spec_rows.
    destruct (decide (filter (spec_not_past clk) hourly = [])) as [E|]; [|reflexivity].
    exfalso. apply Exists_exists in Hex as (h & Hin & Hq).
    assert (Hf : h ∈ filter (spec_not_past clk) hourly)
      by (apply list_elem_of_filter; split; assumption).
    rewrite E in Hf. now apply not_elem_of_nil in Hf.
  - intros Hall. unfold spec_rows.
    destruct (decide (filter (spec_not_past clk) hourly = [])) as [|Hne]; [reflexivity|].
    exfalso. destruct (filter (spec_not_past clk) hourly) as [|h rest] eqn:E; [congruence|].
    assert (Hf : h ∈ filter (spec_not_past clk) hourly) by (rewrite E; left).
    apply list_elem_of_filter in Hf as [Hq Hin].
    rewrite Forall_forall in Hall. exact (Hall h Hin Hq).
Qed.

Lemma format_hourly_forecast_selection_witness :
  0 <= default_hours /\
  format_hourly_forecast clock_1425 [] default_hours = Ok "" /\
  (exists block,
     format_hourly_forecast clock_1425 points_13_to_16 default_hours = Ok block /\
     drop 3 (split_lines block) =
       ["14:00  🌤️  21°C"; "15:00  ⛅  22°C"; "16:00  ☁️  23°C"]) /\
  spec_rows clock_1425 points_13_to_16 (Z.to_nat default_hours) =
    [ point_at 13 21 1; point_at 14 22 2; point_at 15 23 3 ].
Proof.
  assert (H0 : 0 <= default_hours) by (unfold default_hours; lia).
  destruct (format_hourly_forecast_selection clock_1425 points_13_to_16 default_hours H0)
    as (Hempty & Hreturns & Hrows & Hsome & _).
  split; [exact H0|]. split; [exact Hempty|]. split.
  - destruct (Hreturns ltac:(discriminate) points_13_to_16_formattable) as [block Hb].
    exists block. split; [exact Hb|].
    rewrite (Hrows block ltac:(discriminate) Hb). reflexivity.
  - rewrite Hsome; [reflexivity|]. by_compute.
Defined.

(** With all points in the past the unfiltered first rows are rendered. *)
Example format_hourly_forecast_all_past :
  let late := {| now_instant := 20 * HOUR; local_offset := fun _ => HOUR |} in
  format_hourly_forecast late points_13_to_16 2 =
  Ok (join_lines [""; ""; "Stündlich:"; "13:00  ☀️  20°C"; "14:00  🌤️  21°C"]).
Proof. reflexivity. Qed.

(** C7, as the code renders the block.  For a non-empty list the
    formatter returns whenever every point and the current time have a
    local time within the years 1 to 9999; whenever it returns, the block
    starts with two empty lines (the separation from the wind line), then
    the heading "Stündlich:", then exactly one line for each selected
    point: its local time as HH:MM, two spaces, the icon that the table
    gives for its weather code, two spaces, its temperature and "°C". *)
Theorem format_hourly_forecast_block (clk : Clock)
    (hourly : list HourlyPoint) (hours : Z) :
  hourly <> [] ->
  (formattable clk hourly ->
   exists block, format_hourly_forecast clk hourly hours = Ok block) /\
  (forall block,
     format_hourly_forecast clk hourly hours = Ok block ->
     exists rows,
       select_rows clk hourly hours = Ok rows /\
       split_lines block =
         [""; ""; "Stündlich:"] ++
         map (fun h =>
                strftime_HM (to_local clk (h_time h)) +:+ "  "
                  +:+ (wmo_to_icon_desc (h_wmo h)).1 +:+ "  "
                  +:+ str_int (h_temp h) +:+ "°C")
             rows /\
       length (split_lines block) = (3 + length rows)%nat).
Proof.
  intros Hne. split.
  - intros Hform. rewrite (format_hourly_forecast_Ok _ _ _ Hne Hform). eauto.
  - intros block H. exists (rows_value clk hourly hours).
    rewrite (format_hourly_forecast_lines _ _ _ _ Hne H).
    apply format_hourly_forecast_Ok_inv in H as (_ & Hrows & _); [|exact Hne].
    split; [exact Hrows|]. split; [reflexivity|].
    rewrite length_app, length_map. reflexivity.
Qed.

Lemma format_hourly_forecast_block_witness :
  [point_at 13 21 0] <> [] /\
  exists block,
    format_hourly_forecast clock_1425 [point_at 13 21 0] default_hours = Ok block /\
    split_lines block = [""; ""; "Stündlich:"; "14:00  ☀️  21°C"].
Proof.
  split; [discriminate|].
  destruct (format_hourly_forecast_block clock_1425 [point_at 13 21 0] default_hours
              ltac:(discriminate)) as [Hreturns Hlines].
  destruct Hreturns as [block Hb]; [split; [repeat constructor | reflexivity]|].
  exists block. split; [exact Hb|].
  destruct (Hlines block Hb) as (rows & Hrows & -> & _).
  injection Hrows as <-. reflexivity.
Defined.

(** C7 as worded fails: the block of one point does not consist of the
    heading "Hourly:" and the line of the point. *)
Lemma format_hourly_forecast_heading_not_Hourly :
  format_hourly_forecast clock_1425 [point_at 13 21 0] default_hours =
    Ok (LF +:+ LF +:+ "Stündlich:" +:+ LF +:+ "14:00  ☀️  21°C") /\
  split_lines (LF +:+ LF +:+ "Stündlich:" +:+ LF +:+ "14:00  ☀️  21°C") <>
    ["Hourly:"; "14:00  ☀️  21°C"].
Proof. split; [reflexivity | discriminate]. Qed.

(** ** What the formatter reads besides its arguments *)

Lemma astimezone_ext clk1 clk2 d :
  (forall i, local_offset clk1 i = local_offset clk2 i) ->
  astimezone clk1 d = astimezone clk2 d.
Proof.
  intros Hoff. unfold astimezone, localizable, to_local. now rewrite Hoff.
Qed.

Lemma hourly_line_ext clk1 clk2 h :
  (forall i, local_offset clk1 i = local_offset clk2 i) ->
  hourly_line clk1 h = hourly_line clk2 h.
Proof. intros Hoff. unfold hourly_line. now rewrite (astimezone_ext _ _ _ Hoff). Qed.

Lemma spec_hour_floor_ext clk1 clk2 i :
  (forall i, local_offset clk1 i = local_offset clk2 i) ->
  spec_hour_floor clk1 i = spec_hour_floor clk2 i.
Proof. intros Hoff. unfold spec_hour_floor. now rewrite Hoff. Qed.

Lemma filterM_ext {A} (f g : A -> result bool) (l : list A) :
  (forall x, f x = g x) -> filterM f l = filterM g l.
Proof.
  intros Hfg. induction l as [|x l IH]; [reflexivity|].
  cbn [filterM]. now rewrite Hfg, IH.
Qed.

Lemma mapM_result_ext {A B} (f g : A -> result B) (l : list A) :
  (forall x, f x = g x) -> mapM f l = mapM g l.
Proof.
  intros Hfg. induction l as [|x l IH]; [reflexivity|].
  cbn [mapM]. now rewrite Hfg, IH.
Qed.

Lemma is_future_same_hour clk1 clk2 h :
  (forall i, local_offset clk1 i = local_offset clk2 i) ->
  spec_hour_floor clk1 (now_instant clk1) = spec_hour_floor clk2 (now_instant clk2) ->
  localizable clk1 (now_utc clk1) = true ->
  localizable clk2 (now_utc clk2) = true ->
  is_future clk1 h = is_future clk2 h.
Proof.
  intros Hoff Hnow H1 H2.
  destruct (localizable clk1 (h_time h)) eqn:Hh.
  - assert (Hh2 : localizable clk2 (h_time h) = true).
    { pose proof (astimezone_ext clk1 clk2 (h_time h) Hoff) as E.
      rewrite (astimezone_Ok _ _ Hh) in E. symmetry in E.
      now apply astimezone_Ok_inv in E. }
    rewrite (is_future_Ok _ _ Hh H1), (is_future_Ok _ _ Hh2 H2). f_equal.
    apply bool_decide_ext. unfold spec_not_past.
    now rewrite Hnow, (spec_hour_floor_ext clk1 clk2 _ Hoff).
  - unfold is_future, local_hour.
    rewrite <- (astimezone_ext clk1 clk2 (h_time h) Hoff).
    assert (E : astimezone clk1 (h_time h) = Raise OverflowError_date)
      by (unfold astimezone; now rewrite Hh).
    now rewrite E.
Qed.

Lemma format_hourly_forecast_same_hour clk1 clk2 hourly hours :
  (forall i, local_offset clk1 i = local_offset clk2 i) ->
  spec_hour_floor clk1 (now_instant clk1) = spec_hour_floor clk2 (now_instant clk2) ->
  localizable clk1 (now_utc clk1) = true ->
  localizable clk2 (now_utc clk2) = true ->
  format_hourly_forecast clk1 hourly hours = format_hourly_forecast clk2 hourly hours.
Proof.
  intros Hoff Hnow H1 H2. unfold format_hourly_forecast, select_rows.
  destruct hourly as [|h0 rest]; [reflexivity|].
  rewrite (filterM_ext (is_future clk1) (is_future clk2))
    by (intros h; now apply is_future_same_hour).
  destruct (filterM (is_future clk2) (h0 :: rest)) as [future|e]; [|reflexivity].
  cbn [mbind result_bind mret result_ret].
  now rewrite (mapM_result_ext (hourly_line clk1) (hourly_line clk2))
    by (intros h; now apply hourly_line_ext).
Qed.

(** What the builder returns, in terms of what the formatter returns. *)
Lemma build_waybar_output_Ok_inv {Resp} py (response : option Resp) li wd warning
    (fmt : list HourlyPoint -> result string) out :
  build_waybar_output py response li wd warning fmt = Ok out ->
  exists block,
    fmt (hourly wd) = Ok block /\
    build_waybar_output py response li wd warning (fun _ => Ok block) = Ok out.
Proof.
  unfold build_waybar_output. destruct (fmt (hourly wd)) as [block|e]; [|discriminate].
  intros H. exists block. split; [reflexivity | exact H].
Qed.

Lemma build_waybar_output_ext {Resp} py (response : option Resp) li wd warning
    (fmt1 fmt2 : list HourlyPoint -> result string) :
  fmt1 (hourly wd) = fmt2 (hourly wd) ->
  build_waybar_output py response li wd warning fmt1 =
  build_waybar_output py response li wd warning fmt2.
Proof. intros H. unfold build_waybar_output. now rewrite H. Qed.

(** C9, as far as it holds.  The builder with [format_hourly_forecast]
    reads the clock and the local time zone.  When the time-zone offsets
    are the same and both invocations run within the same local clock
    hour, two invocations on the same arguments that return a payload
    return the same payload, and with a current time that has a local
    time they have the same outcome altogether; when there are no hourly
    points they return the same payload at any two times. *)
Theorem build_waybar_output_same_hour (py : Builtins) (response : option Response)
    (location_info : LocationInfo) (weather_data : WeatherData) (warning : string)
    (clk1 clk2 : Clock) :
  ((forall i, local_offset clk1 i = local_offset clk2 i) ->
   spec_hour_floor clk1 (now_instant clk1) = spec_hour_floor clk2 (now_instant clk2) ->
   (forall out1 out2,
      build_waybar_output py response location_info weather_data warning
        (fun hourly => format_hourly_forecast clk1 hourly default_hours) = Ok out1 ->
      build_waybar_output py response location_info weather_data warning
        (fun hourly => format_hourly_forecast clk2 hourly default_hours) = Ok out2 ->
      out1 = out2) /\
   (localizable clk1 (now_utc clk1) = true ->
    localizable clk2 (now_utc clk2) = true ->
    build_waybar_output py response location_info weather_data warning
      (fun hourly => format_hourly_forecast clk1 hourly default_hours) =
    build_waybar_output py response location_info weather_data warning
      (fun hourly => format_hourly_forecast clk2 hourly default_hours))) /\
  (hourly weather_data = [] ->
   (exists out,
      build_waybar_output py response location_info weather_data warning
        (fun hourly => format_hourly_forecast clk1 hourly default_hours) = Ok out) /\
   build_waybar_output py response location_info weather_data warning
     (fun hourly => format_hourly_forecast clk1 hourly default_hours) =
   build_waybar_output py response location_info weather_data warning
     (fun hourly => format_hourly_forecast clk2 hourly default_hours)).
Proof.
  split.
  - intros Hoff Hnow.
    assert (Hsame : localizable clk1 (now_utc clk1) = true ->
                    localizable clk2 (now_utc clk2) = true ->
                    build_waybar_output py response location_info weather_data warning
                      (fun hourly => format_hourly_forecast clk1 hourly default_hours) =
                    build_waybar_output py response location_info weather_data warning
                      (fun hourly => format_hourly_forecast clk2 hourly default_hours)).
    { intros H1 H2. apply build_waybar_output_ext.
      now apply format_hourly_forecast_same_hour. }
    split; [|exact Hsame].
    intros out1 out2 B1 B2.
    destruct (hourly weather_data) as [|h0 rest] eqn:Eh.
    + rewrite (build_waybar_output_ext py response location_info weather_data warning
                 _ (fun hourly => format_hourly_forecast clk2 hourly default_hours)) in B1
        by (rewrite Eh; reflexivity).
      congruence.
    + destruct (build_waybar_output_Ok_inv _ _ _ _ _ _ _ B1) as (b1 & F1 & _).
      destruct (build_waybar_output_Ok_inv _ _ _ _ _ _ _ B2) as (b2 & F2 & _).
      rewrite Eh in F1, F2.
      apply format_hourly_forecast_Ok_inv in F1 as ([_ N1] & _); [|discriminate].
      apply format_hourly_forecast_Ok_inv in F2 as ([_ N2] & _); [|discriminate].
      rewrite (Hsame N1 N2) in B1. congruence.
  - intros Hnil. split.
    + unfold build_waybar_output. rewrite Hnil. cbn [format_hourly_forecast mret result_ret
        mbind result_bind]. eauto.
    + apply build_waybar_output_ext. now rewrite Hnil.
Qed.

(** The weather of the example with the four points, and a second clock:
    the same zone, 14:50 and 16:25 local. *)
Definition weather_13_to_16 : WeatherData :=
  {| request_limit_reached := false;
     current := current (berlin_weather false 0);
     hourly := points_13_to_16 |}.

Definition clock_1450 : Clock :=
  {| now_instant := 13 * HOUR + 50 * MINUTE; local_offset := fun _ => HOUR |}.

Definition clock_1625 : Clock :=
  {| now_instant := 15 * HOUR + 25 * MINUTE; local_offset := fun _ => HOUR |}.

(** Stand-ins for the builtins in examples that never reach them. *)
Definition no_builtins : Builtins :=
  {| float_of_str := fun _ => Raise (Exn "ValueError" "could not convert string to float");
     float_of_big_int := fun _ => Raise (Exn "OverflowError" "int too large to convert to float");
     repr_other := fun _ => "" |}.

Lemma build_waybar_output_same_hour_witness :
  build_waybar_output (Resp := Response) no_builtins None berlin_location
    weather_13_to_16 ""
    (fun hourly => format_hourly_forecast clock_1425 hourly default_hours) =
  build_waybar_output (Resp := Response) no_builtins None berlin_location
    weather_13_to_16 ""
    (fun hourly => format_hourly_forecast clock_1450 hourly default_hours).
Proof.
  apply (proj2 (proj1 (build_waybar_output_same_hour no_builtins None berlin_location
                         weather_13_to_16 "" clock_1425 clock_1450)
                  (fun i => eq_refl) eq_refl)); reflexivity.
Defined.

(** C9 as worded fails: the same arguments give a payload at 14:25 and a
    different one at 16:25. *)
Lemma build_waybar_output_depends_on_clock :
  exists out1 out2,
    build_waybar_output (Resp := Response) no_builtins None berlin_location
      weather_13_to_16 ""
      (fun hourly => format_hourly_forecast clock_1425 hourly default_hours) = Ok out1 /\
    build_waybar_output (Resp := Response) no_builtins None berlin_location
      weather_13_to_16 ""
      (fun hourly => format_hourly_forecast clock_1625 hourly default_hours) = Ok out2 /\
    tooltip out1 <> tooltip out2.
Proof.
  eexists _, _. split; [vm_compute; reflexivity|]. split; [vm_compute; reflexivity|].
  cbn [tooltip]. discriminate.
Qed.

(** ** The statements of the [try] block, when they all return *)

Lemma fromtimestamp_utc_Ok_eq ts d :
  fromtimestamp_utc ts = Ok d -> d = utc_datetime (ts * SECOND).
Proof.
  unfold fromtimestamp_utc. destruct (_ && _); [|discriminate]. now intros [= <-].
Qed.

Lemma np_size_astype {A B} (cast : A -> B) (a : ndarray A) :
  np_size (np_astype cast a) = np_size a.
Proof. destruct a; [apply length_fmap | reflexivity]. Qed.

Lemma np_getitem_astype {A B} (cast : A -> B) (a : ndarray A) i y :
  np_getitem (np_astype cast a) i = Ok y ->
  exists x, np_getitem a i = Ok x /\ y = cast x.
Proof.
  destruct a as [items|item]; [|discriminate]. cbn [np_astype np_getitem].
  rewrite list_lookup_fmap. destruct (items !! i) as [x|]; [|discriminate].
  intros [= <-]. eauto.
Qed.

Lemma np_getitem_lt {A} (a : ndarray A) i x :
  np_getitem a i = Ok x -> (i < np_size a)%nat.
Proof.
  destruct a as [items|item]; [|discriminate]. cbn [np_getitem np_size].
  destruct (items !! i) eqn:E; [|discriminate]. intros _. eapply lookup_lt_Some; eauto.
Qed.

(** Everything a successful run of the [try] block went through. *)
Lemma fetch_and_normalize_inv w lat lon tz wd resp :
  fetch_and_normalize w lat lon tz = Ok (wd, resp) ->
  exists rest cur v0 v1 v2 v3 v4 v5 code hb t2m wmo_raw,
    weather_api w lat lon tz = Ok (resp :: rest) /\
    r_Current resp = Some cur /\
    cur_Value cur 0%nat = Ok v0 /\ cur_Value cur 1%nat = Ok v1 /\
    cur_Value cur 2%nat = Ok v2 /\ cur_Value cur 3%nat = Ok v3 /\
    cur_Value cur 4%nat = Ok v4 /\ cur_Value cur 5%nat = Ok v5 /\
    py_int v5 = Ok code /\
    py_round v0 = Ok (temp (current wd)) /\
    py_round v1 = Ok (feels_like (current wd)) /\
    py_round v2 = Ok (humidity (current wd)) /\
    py_round v3 = Ok (wind_speed (current wd)) /\
    py_round v4 = Ok (wind_deg (current wd)) /\
    weather (current wd) =
      {| description := (wmo_to_icon_desc code).2; icon := (wmo_to_icon_desc code).1;
         icon_code := str_int code |} /\
    request_limit_reached wd = false /\
    r_Hourly resp = Some hb /\
    hourly_values hb 0 = Ok t2m /\
    hourly_values hb 1 = Ok wmo_raw /\
    hb_Interval hb <> 0 /\
    in_datetime_range (hb_Time hb * SECOND) = true /\
    in_datetime_range (hb_TimeEnd hb * SECOND) = true /\
    mapM (hourly_point (utc_datetime (hb_Time hb * SECOND))
            (utc_datetime (hb_TimeEnd hb * SECOND))
            ((hb_TimeEnd hb - hb_Time hb) `div` hb_Interval hb)
            t2m (np_astype (np_astype_int (np_invalid_cast w)) wmo_raw))
         (seq 0 (Z.to_nat
            (Z.min (Z.min ((hb_TimeEnd hb - hb_Time hb) `div` hb_Interval hb)
                          (Z.of_nat (np_size t2m)))
                   (Z.of_nat (np_size wmo_raw))))) = Ok (hourly wd).
Proof.
  intros H. unfold fetch_and_normalize, current_value in H.
  inv_bind H as responses E1. inv_bind H as response E2. apply py_index_Ok in E2.
  inv_bind H as cur E3. apply attr_of_Ok in E3.
  inv_bind H as x0 E4. inv_bind H as x1 E5.
  inv_bind H as hum E6. inv_bind E6 as x2 E6'.
  inv_bind H as x3 E7. inv_bind H as x4 E8.
  inv_bind H as code E9. inv_bind E9 as x5 E9'.
  destruct (wmo_to_icon_desc code) as [ic de] eqn:Ewmo.
  inv_bind H as temp' E10. inv_bind H as feels_like' E11.
  inv_bind H as wind_speed' E12. inv_bind H as wind_deg' E13.
  inv_bind H as hb Ehb. apply attr_of_Ok in Ehb.
  inv_bind H as start Es. pose proof (fromtimestamp_utc_Ok _ _ Es) as Es'.
  assert (Rs : in_datetime_range (hb_Time hb * SECOND) = true).
  { unfold fromtimestamp_utc in Es. unfold in_datetime_range.
    now destruct (_ && _) in Es |- *. }
  apply fromtimestamp_utc_Ok_eq in Es.
  inv_bind H as end_ Ee. pose proof (fromtimestamp_utc_Ok _ _ Ee) as Ee'.
  assert (Re : in_datetime_range (hb_TimeEnd hb * SECOND) = true).
  { unfold fromtimestamp_utc in Ee. unfold in_datetime_range.
    now destruct (_ && _) in Ee |- *. }
  apply fromtimestamp_utc_Ok_eq in Ee.
  inv_bind H as n En.
  rewrite Es', Ee', <- Z.mul_sub_distr_r in En.
  apply seconds_floordiv_Ok in En as [Hstep ->].
  inv_bind H as t2m Et. inv_bind H as wmo_raw Ew. inv_bind H as hours Eh.
  injection H as <- <-. subst start end_.
  cbn [current temp feels_like humidity wind_speed wind_deg weather
       request_limit_reached hourly].
  rewrite np_size_astype in Eh.
  destruct responses as [|r0 rest]; [discriminate|]. injection E2 as ->.
  exists rest, cur, x0, x1, x2, x3, x4, x5, code, hb, t2m, wmo_raw.
  rewrite Ewmo. cbn [fst snd].
  repeat (split; [first [assumption | reflexivity]|]). assumption.
Qed.

Lemma hourly_point_of_mapM start end_ n t2m wmo N hours i p :
  mapM (hourly_point start end_ n t2m wmo) (seq 0 N) = Ok hours ->
  hours !! i = Some p ->
  (i < N)%nat /\ hourly_point start end_ n t2m wmo i = Ok p.
Proof.
  intros Hm Hp.
  pose proof (mapM_Ok_length _ _ _ Hm) as Hlen. rewrite length_seq in Hlen.
  assert (Hi : (i < N)%nat) by (rewrite <- Hlen; eapply lookup_lt_Some; eauto).
  split; [exact Hi|].
  assert (Hseq : seq 0 N !! i = Some i)
    by (rewrite lookup_seq; simpl; split; [reflexivity|lia]).
  destruct (mapM_Ok_lookup _ _ _ _ _ Hm Hseq) as (y & Hy & Hf).
  rewrite Hp in Hy. now injection Hy as <-.
Qed.

(** Example blocks: the given variables, and a failure past the last one.
    The accessor itself does not check the index, so the model leaves the
    answer past the end to the block; these examples choose to fail. *)
Definition values_of (variables : list (list pyfloat)) (j : nat)
    : result (option (list pyfloat)) :=
  match variables !! j with
  | Some values => Ok (Some values)
  | None => Raise (AttributeError_None "ValuesAsNumpy")
  end.

Definition current_of (variables : list pyfloat) (j : nat) : result pyfloat :=
  match variables !! j with
  | Some value => Ok value
  | None => Raise (AttributeError_None "Value")
  end.

(** The answer of a provider for a caller in Berlin. *)
Definition berlin_body : pyval :=
  PDict (list_to_map
    [ ("latitude", PFloat (FFin (105 # 2)));
      ("longitude", PFloat (FFin (53 # 4)));
      ("city", PStr "Berlin");
      ("region", PStr "Berlin");
      ("country_name", PStr "Germany") ]).

Definition http_ok (url : string) (body : pyval) : HttpResponse :=
  {| status_code := 200; reason := "OK"; url := url; json := Ok body |}.

(** A ragged answer: twelve declared hours, ten temperatures, eight codes. *)
Definition ragged_hourly : HourlyBlock :=
  {| hb_Time := 1700000000;
     hb_TimeEnd := 1700000000 + 12 * 3600;
     hb_Interval := 3600;
     hb_ValuesAsNumpy :=
       values_of
         [ (fun z => FFin (inject_Z z)) <$> [11; 12; 13; 14; 15; 16; 17; 18; 19; 20];
           (fun z => FFin (inject_Z z)) <$> [0; 1; 2; 3; 45; 48; 51; 53] ] |}.

Definition berlin_current : CurrentBlock :=
  {| cur_Value :=
       current_of [ FFin (43 # 2); FFin 19; FFin 55; FFin 12; FFin 180; FFin 3 ] |}.

Definition ragged_response : Response :=
  {| r_Current := Some berlin_current; r_Hourly := Some ragged_hourly |}.

Definition ragged_world : World :=
  {| CachedSession := Ok ();
     weather_api := fun _ _ _ => Ok [ragged_response];
     np_invalid_cast := - 2 ^ 63;
     requests_get := fun _ url _ => Ok (http_ok url berlin_body) |}.

(** A world in which the forecast service cannot be reached. *)
Definition offline_world : World :=
  {| CachedSession := Ok ();
     weather_api := fun _ _ _ => Raise (Exn "ConnectionError" "Max retries exceeded");
     np_invalid_cast := - 2 ^ 63;
     requests_get := fun _ url _ => Ok (http_ok url berlin_body) |}.

(** A world in which the cache file cannot be created. *)
Definition read_only_world : World :=
  {| CachedSession := Raise (Exn "OperationalError" "unable to open database file");
     weather_api := fun _ _ _ => Ok [ragged_response];
     np_invalid_cast := - 2 ^ 63;
     requests_get := fun _ url _ => Ok (http_ok url berlin_body) |}.

Lemma get_weather_Ok_inv w lat lon place_name tz region country wd li resp :
  get_weather w lat lon place_name tz region country = Ok (wd, li, Some resp) ->
  fetch_and_normalize w lat lon tz = Ok (wd, resp).
Proof.
  unfold get_weather. destruct (CachedSession w) as [[]|e]; [|discriminate].
  cbn [mbind result_bind]. unfold try_except.
  destruct (fetch_and_normalize w lat lon tz) as [[wd' resp']|e];
    cbn [mbind result_bind mret result_ret].
  - now intros [= -> _ ->].
  - discriminate.
Qed.

(** ** The hourly sequence of a successful fetch *)

(** C5.  After a successful fetch the hourly sequence is as long as the
    smallest of the declared number of steps (the whole steps of
    [Interval] seconds from [Time] to [TimeEnd]; none if the interval is
    reversed), the size of the temperature array and the size of the
    weather-code array; its [i]-th point carries the rounded [i]-th
    temperature and the [i]-th weather code, both of which exist, so no
    array is read past its end. *)
Theorem get_weather_hourly_truncated (w : World) (lat lon : pyfloat)
    (place_name : pyval) (tz : string) (region country : pyval)
    (wd : WeatherData) (li : LocationInfo) (resp : Response) :
  get_weather w lat lon place_name tz region country = Ok (wd, li, Some resp) ->
  exists hb t2m wmo_raw,
    r_Hourly resp = Some hb /\
    hourly_values hb 0 = Ok t2m /\
    hourly_values hb 1 = Ok wmo_raw /\
    hb_Interval hb <> 0 /\
    length (hourly wd) =
      (Z.to_nat ((hb_TimeEnd hb - hb_Time hb) `div` hb_Interval hb)
         `min` (np_size t2m `min` np_size wmo_raw))%nat /\
    forall i, (i < length (hourly wd))%nat ->
      exists p x c,
        hourly wd !! i = Some p /\
        np_getitem t2m i = Ok x /\ np_getitem wmo_raw i = Ok c /\
        py_round x = Ok (h_temp p) /\
        h_wmo p = np_astype_int (np_invalid_cast w) c.
Proof.
  intros H. apply get_weather_Ok_inv in H.
  destruct (fetch_and_normalize_inv _ _ _ _ _ _ H)
    as (rest & cur & v0 & v1 & v2 & v3 & v4 & v5 & code & hb & t2m & wmo_raw & Hinv).
  destruct Hinv as (_ & _ & _ & _ & _ & _ & _ & _ & _ & _ & _ & _ & _ & _ & _ & _
                    & Hhb & Ht & Hw & Hstep & _ & _ & Hm).
  exists hb, t2m, wmo_raw. repeat (split; [assumption|]).
  pose proof (mapM_Ok_length _ _ _ Hm) as Hlen. rewrite length_seq in Hlen.
  split; [lia|].
  intros i Hi.
  destruct (hourly wd !! i) as [p|] eqn:Ep; [|apply lookup_ge_None in Ep; lia].
  destruct (hourly_point_of_mapM _ _ _ _ _ _ _ _ _ Hm Ep) as [_ Hpoint].
  unfold hourly_point in Hpoint.
  inv_bind Hpoint as scaled E14. inv_bind Hpoint as t E15.
  inv_bind Hpoint as x Ex. inv_bind Hpoint as tmp Er. inv_bind Hpoint as code' Ec.
  injection Hpoint as <-. cbn [h_temp h_wmo].
  apply np_getitem_astype in Ec as (c & Ec & ->).
  exists {| h_time := t; h_temp := tmp;
            h_wmo := np_astype_int (np_invalid_cast w) c |}, x, c.
  repeat split; assumption.
Qed.

(** The ragged answer gives eight points, the pairs 0 to 7. *)
Example get_weather_ragged :
  match get_weather ragged_world (FFin (105 # 2)) (FFin (53 # 4)) (PStr "Berlin")
          default_tz (PStr "Berlin") (PStr "Germany") with
  | Ok (wd, _, _) => (fun p => (h_temp p, h_wmo p)) <$> hourly wd
  | Raise _ => []
  end = [(11, 0); (12, 1); (13, 2); (14, 3); (15, 45); (16, 48); (17, 51); (18, 53)].
Proof. vm_compute. reflexivity. Qed.

Lemma get_weather_hourly_truncated_witness :
  exists wd li,
    get_weather ragged_world (FFin (105 # 2)) (FFin (53 # 4)) (PStr "Berlin")
      default_tz (PStr "Berlin") (PStr "Germany") = Ok (wd, li, Some ragged_response) /\
    length (hourly wd) = 8%nat.
Proof.
  eexists _, _.
  match goal with
  | |- ?fetched /\ _ => assert (E : fetched) by (vm_compute; reflexivity)
  end.
  split; [exact E|].
  destruct (get_weather_hourly_truncated _ _ _ _ _ _ _ _ _ _ E)
    as (hb & t2m & wmo_raw & Hhb & Ht & Hw & _ & Hlen & _).
  injection Hhb as <-. vm_compute in Ht, Hw. injection Ht as <-. injection Hw as <-.
  rewrite Hlen. reflexivity.
Defined.

(** ** The degraded path *)

(** The city of [location_info]: the place name if it is true, else the
    coordinates with two decimals. *)
Definition default_city (lat lon : pyfloat) (place_name : pyval) : pyval :=
  py_or place_name (PStr (fmt_f 2 lat +:+ "," +:+ fmt_f 2 lon)).

Lemma get_weather_after_session w lat lon place_name tz region country :
  CachedSession w = Ok () ->
  get_weather w lat lon place_name tz region country =
  let location_info :=
    {| city := default_city lat lon place_name; region := region; country := country |} in
  match fetch_and_normalize w lat lon tz with
  | Ok (weather_data, response) => Ok (weather_data, location_info, Some response)
  | Raise _ => Ok (degraded_weather_data, location_info, None)
  end.
Proof.
  intros Hs. unfold get_weather. rewrite Hs. simpl.
  now destruct (fetch_and_normalize w lat lon tz) as [[wd resp]|e].
Qed.

(** C1, as far as the [try] block reaches.  Once the cached session has
    been built, [get_weather] returns for every input.  If a statement of
    the [try] block raises, the result is the placeholder snapshot (flag
    set, all numbers 0, description "unbekannt", icon "❓", no hourly
    points), no response, and the location whose region and country are the
    arguments and whose city is the place name whenever the place name is
    true, that is neither [None] nor empty. *)
Theorem get_weather_degraded_on_failure (w : World) (lat lon : pyfloat)
    (place_name : pyval) (tz : string) (region_arg country_arg : pyval) :
  CachedSession w = Ok () ->
  (exists r, get_weather w lat lon place_name tz region_arg country_arg = Ok r) /\
  (forall e, fetch_and_normalize w lat lon tz = Raise e ->
     exists li,
       get_weather w lat lon place_name tz region_arg country_arg =
         Ok (degraded_weather_data, li, None) /\
       region li = region_arg /\ country li = country_arg /\
       (py_truthy place_name = true -> city li = place_name) /\
       (py_truthy place_name = false ->
        city li = PStr (fmt_f 2 lat +:+ "," +:+ fmt_f 2 lon))) /\
  request_limit_reached degraded_weather_data = true /\
  current degraded_weather_data =
    {| temp := 0; feels_like := 0; humidity := 0; wind_speed := 0; wind_deg := 0;
       weather := {| description := "unbekannt"; icon := "❓"; icon_code := "-1" |} |} /\
  hourly degraded_weather_data = [].
Proof.
  intros Hs. rewrite (get_weather_after_session _ _ _ _ _ _ _ Hs).
  split; [|split; [|repeat split]].
  - destruct (fetch_and_normalize w lat lon tz) as [[wd resp]|e]; eauto.
  - intros e ->. eexists. split; [reflexivity|]. simpl.
    unfold default_city, py_or. repeat split; intros ->; reflexivity.
Qed.

Lemma get_weather_degraded_on_failure_witness :
  get_weather offline_world (FFin (105 # 2)) (FFin (53 # 4)) (PStr "Berlin")
    default_tz (PStr "Berlin") (PStr "Germany") =
  Ok (degraded_weather_data,
      {| city := PStr "Berlin"; region := PStr "Berlin"; country := PStr "Germany" |},
      None).
Proof.
  destruct (get_weather_degraded_on_failure offline_world (FFin (105 # 2)) (FFin (53 # 4))
              (PStr "Berlin") default_tz (PStr "Berlin") (PStr "Germany") eq_refl)
    as (_ & Hfail & _).
  destruct (Hfail _ eq_refl) as ([c r k] & -> & Hr & Hk & Hc & _).
  simpl in *. rewrite Hr, Hk, (Hc eq_refl). reflexivity.
Defined.

(** C1 as worded fails twice.  When the cache file cannot be created the
    exception of [CachedSession] reaches the caller; and an empty place
    name, although provided, is replaced by the coordinates. *)
Lemma get_weather_raises_and_replaces_empty_name :
  get_weather read_only_world (FFin (105 # 2)) (FFin (53 # 4)) (PStr "Berlin")
    default_tz (PStr "Berlin") (PStr "Germany") =
    Raise (Exn "OperationalError" "unable to open database file") /\
  get_weather offline_world (FFin (105 # 2)) (FFin (53 # 4)) (PStr "")
    default_tz (PStr "Berlin") (PStr "Germany") =
    Ok (degraded_weather_data,
        {| city := PStr "52.50,13.25"; region := PStr "Berlin"; country := PStr "Germany" |},
        None) /\
  PStr "52.50,13.25" <> PStr "".
Proof. split; [reflexivity|]. split; [reflexivity | discriminate]. Qed.

(** ** The class of the degraded output *)

Lemma str_int_nonneg_not_minus_one z : 0 <= z -> str_int z <> "-1".
Proof.
  intros Hz. unfold str_int.
  destruct z as [|p|p]; [discriminate| |lia].
  simpl. unfold NilZero.string_of_uint.
  destruct (Pos.to_uint p); simpl; discriminate.
Qed.

(** C10.  When a statement of the [try] block raises, the snapshot that
    [get_weather] returns carries the icon code "-1", the builder returns
    and the class of the built output is "-1"; this is not [str(code)] of
    any code of the table nor of any non-negative integer. *)
Theorem degraded_class_is_minus_one (py : Builtins) (w : World) (clk : Clock)
    (lat lon : pyfloat) (place_name : pyval) (tz : string) (region country : pyval)
    (warning : string) (e : exn) :
  CachedSession w = Ok () ->
  fetch_and_normalize w lat lon tz = Raise e ->
  (exists wd li r out,
     get_weather w lat lon place_name tz region country = Ok (wd, li, r) /\
     icon_code (weather (current wd)) = "-1" /\
     build_waybar_output py r li wd warning
       (fun hourly => format_hourly_forecast clk hourly default_hours) = Ok out /\
     class out = "-1") /\
  (forall code, is_Some (WMO !! code) -> str_int code <> "-1") /\
  (forall code, 0 <= code -> str_int code <> "-1").
Proof.
  intros Hs He. split; [|split].
  - rewrite (get_weather_after_session _ _ _ _ _ _ _ Hs), He. cbv zeta.
    eexists _, _, _, _. split; [reflexivity|]. split; [reflexivity|].
    split; reflexivity.
  - intros code [p Hp]. apply WMO_lookup_Some in Hp.
    assert (Hall : Forall (fun kv => str_int kv.1 <> "-1") WMO_items) by by_compute.
    rewrite Forall_forall in Hall. exact (Hall _ Hp).
  - apply str_int_nonneg_not_minus_one.
Qed.

Lemma degraded_class_is_minus_one_witness :
  exists out,
    build_waybar_output (Resp := Response) no_builtins None
      {| city := PStr "Berlin"; region := PStr "Berlin"; country := PStr "Germany" |}
      degraded_weather_data limit_warning
      (fun hourly => format_hourly_forecast clock_1425 hourly default_hours) = Ok out /\
    class out = "-1".
Proof.
  destruct (degraded_class_is_minus_one no_builtins offline_world clock_1425
              (FFin (105 # 2)) (FFin (53 # 4)) (PStr "Berlin") default_tz
              (PStr "Berlin") (PStr "Germany") limit_warning _ eq_refl eq_refl)
    as ((wd & li & r & out & Hget & _ & Hbuild & Hclass) & _).
  injection Hget as <- <- <-. exists out. split; assumption.
Defined.

(** ** The provider chain *)

Section ProviderChain.
Context (w : World) (timeout : Z).

Abbreviation provider := (string * (pyval -> result IpLocation))%type.

(** The providers before position [i] fail, counted from request [k]. *)
Definition fail_before (ps : list provider) (k i : nat) : Prop :=
  forall j q, (j < i)%nat -> ps !! j = Some q ->
              exists e, try_provider w timeout (k + j) q = Raise e.

Lemma fail_before_head p ps k i :
  fail_before (p :: ps) k (S i) -> exists e, try_provider w timeout k p = Raise e.
Proof.
  intros H. destruct (H 0%nat p) as [e He]; [lia | reflexivity |].
  exists e. now replace k with (k + 0)%nat by lia.
Qed.

Lemma fail_before_tail p ps k i :
  fail_before (p :: ps) k (S i) -> fail_before ps (S k) i.
Proof.
  intros H j q Hj Hq. destruct (H (S j) q) as [e He]; [lia | exact Hq |].
  exists e. now replace (S k + j)%nat with (k + S j)%nat by lia.
Qed.

Lemma fail_before_cons p ps k i e :
  try_provider w timeout k p = Raise e ->
  fail_before ps (S k) i -> fail_before (p :: ps) k (S i).
Proof.
  intros He H [|j] q Hj Hq; simpl in Hq.
  - injection Hq as <-. exists e. now replace (k + 0)%nat with k by lia.
  - destruct (H j q) as [e' He']; [lia | exact Hq |].
    exists e'. now replace (k + S j)%nat with (S k + j)%nat by lia.
Qed.

Lemma try_providers_first_success ps last k i p loc :
  ps !! i = Some p ->
  fail_before ps k i ->
  try_provider w timeout (k + i) p = Ok loc ->
  try_providers w timeout ps last k = (Ok loc, S (k + i)).
Proof.
  revert last k i. induction ps as [|p0 ps IH]; intros last k i Hi Hfail Hok;
    [discriminate|].
  destruct i as [|i]; simpl in Hi |- *.
  - injection Hi as ->. replace (k + 0)%nat with k in * by lia. now rewrite Hok.
  - destruct (fail_before_head _ _ _ _ Hfail) as [e He]. rewrite He.
    replace (k + S i)%nat with (S k + i)%nat in * by lia.
    exact (IH (Some e) (S k) i Hi (fail_before_tail _ _ _ _ Hfail) Hok).
Qed.

Lemma try_providers_all_fail ps q last k e :
  fail_before ps k (length ps) ->
  try_provider w timeout (k + length ps) q = Raise e ->
  try_providers w timeout (ps ++ [q]) last k =
  (Raise (Exn "RuntimeError" ("IP-Geolokation fehlgeschlagen: " +:+ exn_str e)),
   S (k + length ps)).
Proof.
  revert last k. induction ps as [|p0 ps IH]; intros last k Hfail Hq; simpl in *.
  - replace (k + 0)%nat with k in * by lia. now rewrite Hq.
  - destruct (fail_before_head _ _ _ _ Hfail) as [e0 He0]. rewrite He0.
    replace (k + S (length ps))%nat with (S k + length ps)%nat in * by lia.
    exact (IH (Some e0) (S k) (fail_before_tail _ _ _ _ Hfail) Hq).
Qed.

Lemma try_providers_Raise_inv ps last k e n :
  try_providers w timeout ps last k = (Raise e, n) ->
  fail_before ps k (length ps) /\ n = (k + length ps)%nat.
Proof.
  revert last k. induction ps as [|p0 ps IH]; intros last k H; simpl in H.
  - split; [intros j q Hj; simpl in Hj; lia | injection H as _ <-; simpl; lia].
  - destruct (try_provider w timeout k p0) as [loc|e0] eqn:E0; [discriminate|].
    apply IH in H as [Hrest ->]. split; [|simpl; lia].
    exact (fail_before_cons _ _ _ _ _ E0 Hrest).
Qed.

(** A success is the answer of a provider before which all others failed. *)
Lemma try_providers_Ok_inv ps last k loc n :
  try_providers w timeout ps last k = (Ok loc, n) ->
  exists i p, ps !! i = Some p /\ fail_before ps k i /\
              try_provider w timeout (k + i) p = Ok loc /\ n = S (k + i).
Proof.
  revert last k. induction ps as [|p0 ps IH]; intros last k H; simpl in H;
    [discriminate|].
  destruct (try_provider w timeout k p0) as [loc0|e0] eqn:E0.
  - injection H as <- <-. exists 0%nat, p0.
    replace (k + 0)%nat with k by lia.
    repeat split; [|exact E0]. intros j q Hj. lia.
  - apply IH in H as (i & p & Hi & Hfail & Hok & ->).
    exists (S i), p. replace (k + S i)%nat with (S k + i)%nat by lia.
    repeat split; try assumption.
    exact (fail_before_cons _ _ _ _ _ E0 Hfail).
Qed.
End ProviderChain.

(** A world in which only the third provider answers. *)
Definition ip_api_body : pyval :=
  PDict (list_to_map
    [ ("status", PStr "success");
      ("lat", PFloat (FFin (105 # 2)));
      ("lon", PFloat (FFin (53 # 4)));
      ("city", PStr "Berlin");
      ("regionName", PStr "Land Berlin");
      ("country", PStr "Germany") ]).

Definition third_provider_world : World :=
  {| CachedSession := Ok ();
     weather_api := fun _ _ _ => Ok [ragged_response];
     np_invalid_cast := - 2 ^ 63;
     requests_get := fun _ url _ =>
       if String.eqb url "http://ip-api.com/json" then Ok (http_ok url ip_api_body)
       else Raise (Exn "ConnectTimeout" ("timed out: " +:+ url)) |}.

(** A world without network. *)
Definition no_network_world : World :=
  {| CachedSession := Ok ();
     weather_api := fun _ _ _ => Raise (Exn "ConnectionError" "Max retries exceeded");
     np_invalid_cast := - 2 ^ 63;
     requests_get := fun _ url _ => Raise (Exn "ConnectionError" ("unreachable: " +:+ url)) |}.

(** C2.  The providers are tried in the fixed order ipapi.co, ipinfo.io,
    ip-api.com, one request each.  The result is the tuple of the first
    provider whose request, status check, JSON decoding and field
    extraction all succeed, whatever the failures of the providers before
    it.  [get_ip_location] raises only if every provider failed, and the
    RuntimeError it then raises ends with [str] of the failure of the last
    provider. *)
Theorem get_ip_location_first_success (py : Builtins) (w : World)
    (timeout : Z) (k : nat) :
  (providers py).*1 =
    ["https://ipapi.co/json/"; "https://ipinfo.io/json"; "http://ip-api.com/json"] /\
  (forall i p loc,
     providers py !! i = Some p ->
     fail_before w timeout (providers py) k i ->
     try_provider w timeout (k + i) p = Ok loc ->
     get_ip_location py w timeout k = (Ok loc, S (k + i))) /\
  (forall p_last e_last,
     providers py !! 2%nat = Some p_last ->
     fail_before w timeout (providers py) k 2 ->
     try_provider w timeout (k + 2) p_last = Raise e_last ->
     get_ip_location py w timeout k =
       (Raise (Exn "RuntimeError" ("IP-Geolokation fehlgeschlagen: " +:+ exn_str e_last)),
        (k + 3)%nat)) /\
  (forall e n,
     get_ip_location py w timeout k = (Raise e, n) ->
     fail_before w timeout (providers py) k 3).
Proof.
  split; [reflexivity|]. split; [|split].
  - intros i p loc Hi Hfail Hok. unfold get_ip_location.
    exact (try_providers_first_success w timeout _ None k i p loc Hi Hfail Hok).
  - intros p_last e_last Hp Hfail He. injection Hp as <-.
    unfold get_ip_location.
    change (providers py)
      with ([("https://ipapi.co/json/", parse_ipapi py);
             ("https://ipinfo.io/json", parse_ipinfo py)]
              ++ [("http://ip-api.com/json", parse_ip_api py)]).
    rewrite (try_providers_all_fail w timeout _ _ None k e_last).
    + f_equal. simpl. lia.
    + intros j q Hj Hq. apply (Hfail j q Hj).
      destruct j as [|[|j]]; [exact Hq | exact Hq | simpl in Hj; lia].
    + exact He.
  - intros e n H. unfold get_ip_location in H.
    now apply try_providers_Raise_inv in H as [Hfail _].
Qed.

Lemma get_ip_location_first_success_witness :
  get_ip_location no_builtins third_provider_world default_timeout 0 =
    (Ok (FFin (105 # 2), FFin (53 # 4), PStr "Berlin", PStr "Land Berlin", PStr "Germany"),
     3%nat) /\
  get_ip_location no_builtins no_network_world default_timeout 0 =
    (Raise (Exn "RuntimeError"
              "IP-Geolokation fehlgeschlagen: unreachable: http://ip-api.com/json"),
     3%nat).
Proof.
  destruct (get_ip_location_first_success no_builtins third_provider_world
              default_timeout 0) as (_ & Hfirst & _).
  destruct (get_ip_location_first_success no_builtins no_network_world
              default_timeout 0) as (_ & _ & Hlast & _).
  split.
  - apply (Hfirst 2%nat ("http://ip-api.com/json", parse_ip_api no_builtins)).
    + reflexivity.
    + intros [|[|j]] q Hj Hq; [| |lia]; injection Hq as <-; eexists; reflexivity.
    + reflexivity.
  - apply (Hlast ("http://ip-api.com/json", parse_ip_api no_builtins)
                   (Exn "ConnectionError" "unreachable: http://ip-api.com/json")).
    + reflexivity.
    + intros [|[|j]] q Hj Hq; [| |lia]; injection Hq as <-; eexists; reflexivity.
    + reflexivity.
Defined.

(** ** What main prints *)












(* ===================================================================== *)
(** * Further properties of the code *)
(* ===================================================================== *)

(** ** get_weather: what a result looks like *)

Lemma get_weather_Ok_session w lat lon place_name tz region_arg country_arg r :
  get_weather w lat lon place_name tz region_arg country_arg = Ok r ->
  CachedSession w = Ok ().
Proof.
  unfold get_weather. now destruct (CachedSession w) as [[]|e].
Qed.
Lemma string_app_assoc (a b c : string) : (a +:+ b) +:+ c = a +:+ (b +:+ c).
Proof.
  induction a as [|x a IH]; [reflexivity|].
  change (String x ((a +:+ b) +:+ c) = String x (a +:+ (b +:+ c))). now f_equal.
Qed.

Lemma fallback_city_nonempty a b : String.eqb (a +:+ "," +:+ b) "" = false.
Proof. now destruct a. Qed.

(** In every result of [get_weather] the region and the country are the
    arguments, the city is the place name if that is true and else the
    coordinates, so the city is never [None] nor empty; the response is
    absent exactly when the flag is set, and then the snapshot is the
    placeholder. *)
Theorem get_weather_result_shape (w : World) (lat lon : pyfloat)
    (place_name : pyval) (tz : string) (region_arg country_arg : pyval)
    (wd : WeatherData) (li : LocationInfo) (r : option Response) :
  get_weather w lat lon place_name tz region_arg country_arg = Ok (wd, li, r) ->
  region li = region_arg /\
  country li = country_arg /\
  city li = (if py_truthy place_name then place_name
             else PStr (fmt_f 2 lat +:+ "," +:+ fmt_f 2 lon)) /\
  py_truthy (city li) = true /\
  (request_limit_reached wd = true <-> r = None) /\
  (r = None -> wd = degraded_weather_data).
Proof.
  intros H. pose proof (get_weather_Ok_session _ _ _ _ _ _ _ _ H) as Hs.
  rewrite (get_weather_after_session _ _ _ _ _ _ _ Hs) in H. cbv zeta in H.
  assert (Hcity : py_truthy (default_city lat lon place_name) = true).
  { unfold default_city, py_or. destruct (py_truthy place_name) eqn:E; [exact E|].
    simpl. now rewrite fallback_city_nonempty. }
  destruct (fetch_and_normalize w lat lon tz) as [[wd' resp]|e] eqn:E.
  - injection H as <- <- <-.
    destruct (fetch_and_normalize_inv _ _ _ _ _ _ E)
      as (? & ? & ? & ? & ? & ? & ? & ? & ? & ? & ? & ? & Hinv).
    destruct Hinv as (_ & _ & _ & _ & _ & _ & _ & _ & _ & _ & _ & _ & _ & _ & _ & Hflag & _).
    cbn [region country city]. repeat split; try exact Hcity; try discriminate.
    rewrite Hflag. discriminate.
  - injection H as <- <- <-. cbn [region country city]. repeat split; exact Hcity.
Qed.

Lemma get_weather_result_shape_witness :
  city {| city := PStr "52.50,13.25"; region := PNone; country := PNone |}
  = PStr (fmt_f 2 (FFin (105 # 2)) +:+ "," +:+ fmt_f 2 (FFin (53 # 4))).
Proof.
  exact (proj1 (proj2 (proj2
    (get_weather_result_shape offline_world (FFin (105 # 2)) (FFin (53 # 4)) PNone
       default_tz PNone PNone degraded_weather_data
       {| city := PStr "52.50,13.25"; region := PNone; country := PNone |} None
       eq_refl)))).
Defined.

(** After a successful fetch the response is the first one of the client's
    answer, the five numbers of the current conditions are its first five
    variables rounded half to even, and the weather entry is the table's
    pair for the truncated sixth variable, with that code as the class. *)
Theorem get_weather_current_rounded (w : World) (lat lon : pyfloat)
    (place_name : pyval) (tz : string) (region_arg country_arg : pyval)
    (wd : WeatherData) (li : LocationInfo) (resp : Response) :
  get_weather w lat lon place_name tz region_arg country_arg = Ok (wd, li, Some resp) ->
  exists rest cur v0 v1 v2 v3 v4 v5 code,
    weather_api w lat lon tz = Ok (resp :: rest) /\
    r_Current resp = Some cur /\
    cur_Value cur 0%nat = Ok v0 /\ cur_Value cur 1%nat = Ok v1 /\
    cur_Value cur 2%nat = Ok v2 /\ cur_Value cur 3%nat = Ok v3 /\
    cur_Value cur 4%nat = Ok v4 /\ cur_Value cur 5%nat = Ok v5 /\
    py_int v5 = Ok code /\
    py_round v0 = Ok (temp (current wd)) /\
    py_round v1 = Ok (feels_like (current wd)) /\
    py_round v2 = Ok (humidity (current wd)) /\
    py_round v3 = Ok (wind_speed (current wd)) /\
    py_round v4 = Ok (wind_deg (current wd)) /\
    weather (current wd) =
      {| description := (wmo_to_icon_desc code).2; icon := (wmo_to_icon_desc code).1;
         icon_code := str_int code |}.
Proof.
  intros H. apply get_weather_Ok_inv in H.
  destruct (fetch_and_normalize_inv _ _ _ _ _ _ H)
    as (rest & cur & v0 & v1 & v2 & v3 & v4 & v5 & code & hb & t2m & wmo_raw & Hinv).
  exists rest, cur, v0, v1, v2, v3, v4, v5, code.
  repeat (split; [apply Hinv|]). apply Hinv.
Qed.

Lemma get_weather_current_rounded_witness :
  exists wd li,
    get_weather ragged_world (FFin (105 # 2)) (FFin (53 # 4)) (PStr "Berlin")
      default_tz (PStr "Berlin") (PStr "Germany") = Ok (wd, li, Some ragged_response) /\
    py_round (FFin (43 # 2)) = Ok (temp (current wd)) /\
    icon_code (weather (current wd)) = "3".
Proof.
  eexists _, _.
  match goal with
  | |- ?fetched /\ _ => assert (E : fetched) by (vm_compute; reflexivity)
  end.
  split; [exact E|].
  destruct (get_weather_current_rounded _ _ _ _ _ _ _ _ _ _ E)
    as (rest & cur & v0 & v1 & v2 & v3 & v4 & v5 & code & _ & Hcur & H0 & _ & _ & _ & _
        & H5 & Hcode & Ht & _ & _ & _ & _ & Hw).
  injection Hcur as <-. vm_compute in H0, H5. injection H0 as <-. injection H5 as <-.
  vm_compute in Hcode. injection Hcode as <-.
  split; [exact Ht|]. rewrite Hw. reflexivity.
Defined.

(** ** get_weather: the hourly points *)

Lemma div_round_half_even_exact a b : 0 < b -> div_round_half_even (a * b) b = a.
Proof.
  intros Hb. unfold div_round_half_even.
  rewrite Z.mod_mul, Z.div_mul by lia.
  replace (Z.abs (2 * 0)) with 0 by reflexivity.
  destruct (Z.compare_spec 0 (Z.abs b)); lia.
Qed.

(** When the interval from [Time] to [TimeEnd] is a whole number of
    positive steps, the [i]-th hourly point of a successful fetch is the
    UTC time [Time + i * Interval]: the points are one step apart. *)
Theorem get_weather_hourly_times (w : World) (lat lon : pyfloat)
    (place_name : pyval) (tz : string) (region_arg country_arg : pyval)
    (wd : WeatherData) (li : LocationInfo) (resp : Response) (hb : HourlyBlock) :
  get_weather w lat lon place_name tz region_arg country_arg = Ok (wd, li, Some resp) ->
  r_Hourly resp = Some hb ->
  0 < hb_Interval hb ->
  (hb_TimeEnd hb - hb_Time hb) `mod` hb_Interval hb = 0 ->
  forall i p, hourly wd !! i = Some p ->
    h_time p = utc_datetime ((hb_Time hb + Z.of_nat i * hb_Interval hb) * SECOND).
Proof.
  intros H Hhb Hpos Hmod i p Hp. apply get_weather_Ok_inv in H.
  destruct (fetch_and_normalize_inv _ _ _ _ _ _ H)
    as (rest & cur & v0 & v1 & v2 & v3 & v4 & v5 & code & hb' & t2m & wmo_raw & Hinv).
  destruct Hinv as (_ & _ & _ & _ & _ & _ & _ & _ & _ & _ & _ & _ & _ & _ & _ & _
                    & Hhb' & _ & _ & _ & _ & _ & Hm).
  rewrite Hhb in Hhb'. injection Hhb' as <-.
  destruct (hourly_point_of_mapM _ _ _ _ _ _ _ _ _ Hm Hp) as [Hi Hpoint].
  set (n := (hb_TimeEnd hb - hb_Time hb) `div` hb_Interval hb) in *.
  assert (Hn : hb_TimeEnd hb - hb_Time hb = n * hb_Interval hb).
  { unfold n. rewrite Z.mul_comm. apply Z.div_exact; lia. }
  assert (Hn1 : 1 <= n) by lia.
  unfold hourly_point in Hpoint.
  inv_bind Hpoint as scaled E1. inv_bind Hpoint as t E2.
  inv_bind Hpoint as x E3. inv_bind Hpoint as tmp E4. inv_bind Hpoint as c E5.
  injection Hpoint as <-. cbn [h_time].
  unfold timedelta_mul in E1. destruct (_ && _) in E1; [|discriminate].
  injection E1 as <-.
  unfold datetime_add in E2. destruct (_ && _) in E2; [|discriminate].
  injection E2 as <-.
  unfold timedelta_div, instant, utc_datetime. cbn [wall utcoffset].
  rewrite Z.max_l by lia. rewrite !Z.sub_0_r, <- Z.mul_sub_distr_r, Hn.
  replace (Z.of_nat i * (n * hb_Interval hb * SECOND))
    with (Z.of_nat i * hb_Interval hb * SECOND * n) by ring.
  rewrite div_round_half_even_exact by lia.
  f_equal. ring.
Qed.

Lemma get_weather_hourly_times_witness :
  exists wd li,
    get_weather ragged_world (FFin (105 # 2)) (FFin (53 # 4)) (PStr "Berlin")
      default_tz (PStr "Berlin") (PStr "Germany") = Ok (wd, li, Some ragged_response) /\
    h_time <$> hourly wd !! 2%nat = Some (utc_datetime ((1700000000 + 2 * 3600) * SECOND)).
Proof.
  eexists _, _.
  match goal with
  | |- ?fetched /\ _ => assert (E : fetched) by (vm_compute; reflexivity)
  end.
  split; [exact E|].
  match type of E with
  | _ = Ok (?wd, _, _) => destruct (hourly wd !! 2%nat) as [p|] eqn:Ep; [|discriminate Ep]
  end.
  cbn [fmap option_fmap option_map]. f_equal.
  exact (get_weather_hourly_times _ _ _ _ _ _ _ _ _ _ ragged_hourly E eq_refl
           ltac:(reflexivity) ltac:(reflexivity) 2%nat p Ep).
Defined.

(** A bad hourly block costs the whole snapshot: if the step length is 0,
    or one of the temperatures that the loop reads is NaN or infinite, the
    result is the placeholder, whatever the current conditions were. *)
Theorem get_weather_degraded_on_bad_hourly (w : World) (lat lon : pyfloat)
    (place_name : pyval) (tz : string) (region_arg country_arg : pyval)
    (resp : Response) (rest : list Response) (hb : HourlyBlock) :
  CachedSession w = Ok () ->
  weather_api w lat lon tz = Ok (resp :: rest) ->
  r_Hourly resp = Some hb ->
  hb_Interval hb = 0 \/
  (exists t2m wmo_raw i x,
     hourly_values hb 0 = Ok t2m /\
     hourly_values hb 1 = Ok wmo_raw /\
     Z.of_nat i < (hb_TimeEnd hb - hb_Time hb) `div` hb_Interval hb /\
     (i < np_size wmo_raw)%nat /\
     np_getitem t2m i = Ok x /\ (x = FNan \/ exists s, x = FInf s)) ->
  exists li,
    get_weather w lat lon place_name tz region_arg country_arg =
    Ok (degraded_weather_data, li, None).
Proof.
  intros Hs Hapi Hhb Hbad.
  rewrite (get_weather_after_session _ _ _ _ _ _ _ Hs). cbv zeta.
  destruct (fetch_and_normalize w lat lon tz) as [[wd resp']|e] eqn:E; [|eauto].
  exfalso.
  destruct (fetch_and_normalize_inv _ _ _ _ _ _ E)
    as (rest' & cur & v0 & v1 & v2 & v3 & v4 & v5 & code & hb' & t2m' & wmo' & Hinv).
  destruct Hinv as (Hapi' & _ & _ & _ & _ & _ & _ & _ & _ & _ & _ & _ & _ & _ & _ & _
                    & Hhb' & Ht & Hw & Hstep & _ & _ & Hm).
  rewrite Hapi in Hapi'. injection Hapi' as <- <-.
  rewrite Hhb in Hhb'. injection Hhb' as <-.
  destruct Hbad as [H0 | (t2m & wmo_raw & i & x & Ht' & Hw' & Hi & Hiw & Hx & Hnf)];
    [contradiction|].
  rewrite Ht in Ht'. injection Ht' as <-. rewrite Hw in Hw'. injection Hw' as <-.
  pose proof (np_getitem_lt _ _ _ Hx) as Hit.
  assert (Hseq : seq 0 (Z.to_nat
            (Z.min (Z.min ((hb_TimeEnd hb - hb_Time hb) `div` hb_Interval hb)
                          (Z.of_nat (np_size t2m')))
                   (Z.of_nat (np_size wmo')))) !! i = Some i).
  { rewrite lookup_seq. simpl. split; [reflexivity | lia]. }
  destruct (mapM_Ok_lookup _ _ _ _ _ Hm Hseq) as (p & _ & Hpoint).
  unfold hourly_point in Hpoint.
  inv_bind Hpoint as scaled E1. inv_bind Hpoint as t E2.
  inv_bind Hpoint as x' E3. inv_bind Hpoint as tmp E4.
  rewrite Hx in E3. injection E3 as <-.
  destruct Hnf as [-> | [s ->]]; discriminate E4.
Qed.

(** A world whose second hourly temperature is not a number. *)
Definition nan_hourly : HourlyBlock :=
  {| hb_Time := 0; hb_TimeEnd := 7200; hb_Interval := 3600;
     hb_ValuesAsNumpy := values_of [ [FFin 1; FNan]; [FFin 0; FFin 1] ] |}.

Definition nan_world : World :=
  {| CachedSession := Ok ();
     weather_api := fun _ _ _ =>
       Ok [ {| r_Current := Some berlin_current; r_Hourly := Some nan_hourly |} ];
     np_invalid_cast := - 2 ^ 63;
     requests_get := fun _ url _ => Ok (http_ok url berlin_body) |}.

Lemma get_weather_degraded_on_bad_hourly_witness :
  exists li,
    get_weather nan_world (FFin (105 # 2)) (FFin (53 # 4)) (PStr "Berlin")
      default_tz (PStr "Berlin") (PStr "Germany") = Ok (degraded_weather_data, li, None).
Proof.
  apply (get_weather_degraded_on_bad_hourly nan_world _ _ _ _ _ _
           {| r_Current := Some berlin_current; r_Hourly := Some nan_hourly |}
           [] nan_hourly eq_refl eq_refl eq_refl).
  right. exists (NdArray [FFin 1; FNan]), (NdArray [FFin 0; FFin 1]), 1%nat, FNan.
  repeat split; try reflexivity; [simpl; lia | now left].
Defined.

(** An interval that holds no whole step (reversed, empty or shorter than
    one step) is no error.  If the session is built, the answer has a
    current block whose six variables are finite numbers and an hourly
    block with timestamps in the range of [datetime], a step other than 0
    and two variables that can be read, and the interval is that short,
    then the fetch succeeds with an empty hourly list. *)
Theorem get_weather_no_steps (w : World) (lat lon : pyfloat)
    (place_name : pyval) (tz : string) (region_arg country_arg : pyval)
    (resp : Response) (rest : list Response) (cur : CurrentBlock) (hb : HourlyBlock) :
  CachedSession w = Ok () ->
  weather_api w lat lon tz = Ok (resp :: rest) ->
  r_Current resp = Some cur ->
  (forall j, (j < 6)%nat -> exists q, cur_Value cur j = Ok (FFin q)) ->
  r_Hourly resp = Some hb ->
  in_datetime_range (hb_Time hb * SECOND) = true ->
  in_datetime_range (hb_TimeEnd hb * SECOND) = true ->
  hb_Interval hb <> 0 ->
  (hb_TimeEnd hb - hb_Time hb) `div` hb_Interval hb <= 0 ->
  (exists v, hb_ValuesAsNumpy hb 0 = Ok v) ->
  (exists v, hb_ValuesAsNumpy hb 1 = Ok v) ->
  exists wd li,
    get_weather w lat lon place_name tz region_arg country_arg = Ok (wd, li, Some resp) /\
    hourly wd = [] /\ request_limit_reached wd = false.
Proof.
  intros Hs Hapi Hcur Hvals Hhb Rs Re Hstep Hn [a0 H0] [a1 H1].
  destruct (Hvals 0%nat ltac:(lia)) as [q0 V0]. destruct (Hvals 1%nat ltac:(lia)) as [q1 V1].
  destruct (Hvals 2%nat ltac:(lia)) as [q2 V2]. destruct (Hvals 3%nat ltac:(lia)) as [q3 V3].
  destruct (Hvals 4%nat ltac:(lia)) as [q4 V4]. destruct (Hvals 5%nat ltac:(lia)) as [q5 V5].
  rewrite (get_weather_after_session _ _ _ _ _ _ _ Hs). cbv zeta.
  assert (Hfetch : exists wd,
             fetch_and_normalize w lat lon tz = Ok (wd, resp) /\
             hourly wd = [] /\ request_limit_reached wd = false).
  { unfold fetch_and_normalize, current_value, hourly_values, fromtimestamp_utc,
      py_index.
    rewrite Hapi. cbn [mbind result_bind lookup list_lookup].
    rewrite Hcur. cbn [attr_of mbind result_bind].
    rewrite V0. cbn [mbind result_bind]. rewrite V1. cbn [mbind result_bind].
    rewrite V2. cbn [mbind result_bind py_round]. rewrite V3. cbn [mbind result_bind].
    rewrite V4. cbn [mbind result_bind]. rewrite V5. cbn [mbind result_bind py_int].
    destruct (wmo_to_icon_desc _) as [ic de].
    cbn [mbind result_bind py_round].
    rewrite Hhb. cbn [attr_of mbind result_bind].
    unfold in_datetime_range in Rs, Re. rewrite Rs, Re.
    cbn [mbind result_bind].
    unfold seconds_floordiv. destruct (hb_Interval hb =? 0) eqn:E0; [lia|].
    cbn [mbind result_bind]. rewrite H0. cbn [mbind result_bind mret result_ret].
    rewrite H1. cbn [mbind result_bind mret result_ret].
    unfold instant, utc_datetime. cbn [wall utcoffset].
    rewrite !Z.sub_0_r, <- Z.mul_sub_distr_r, Z.div_mul by discriminate.
    replace (Z.to_nat _) with 0%nat by lia.
    cbn [seq mapM mbind result_bind mret result_ret]. eauto. }
  destruct Hfetch as (wd & -> & Hh & Hf). eauto.
Qed.

Definition reversed_hourly : HourlyBlock :=
  {| hb_Time := 7200; hb_TimeEnd := 0; hb_Interval := 3600;
     hb_ValuesAsNumpy := values_of [ [FFin 1; FFin 2]; [FFin 0; FFin 1] ] |}.

Definition reversed_response : Response :=
  {| r_Current := Some berlin_current; r_Hourly := Some reversed_hourly |}.

Definition reversed_world : World :=
  {| CachedSession := Ok ();
     weather_api := fun _ _ _ => Ok [reversed_response];
     np_invalid_cast := - 2 ^ 63;
     requests_get := fun _ url _ => Ok (http_ok url berlin_body) |}.

Lemma get_weather_no_steps_witness :
  exists wd li,
    get_weather reversed_world (FFin (105 # 2)) (FFin (53 # 4)) (PStr "Berlin")
      default_tz (PStr "Berlin") (PStr "Germany") = Ok (wd, li, Some reversed_response) /\
    hourly wd = [] /\ request_limit_reached wd = false.
Proof.
  apply (get_weather_no_steps reversed_world _ _ _ _ _ _ reversed_response []
           berlin_current reversed_hourly eq_refl eq_refl eq_refl).
  - intros [|[|[|[|[|[|j]]]]]] Hj; try lia; eexists; reflexivity.
  - reflexivity.
  - reflexivity.
  - reflexivity.
  - discriminate.
  - vm_compute. discriminate.
  - eexists. reflexivity.
  - eexists. reflexivity.
Defined.

(** ** get_weather: answers with missing parts *)

(** An answer that lacks a part the normalization reads gives the
    placeholder: an empty list of responses, a response without current
    or hourly block, or a read of one of the six current variables or of
    one of the two hourly variables that raises. *)
Theorem get_weather_degraded_on_missing_parts (w : World) (lat lon : pyfloat)
    (place_name : pyval) (tz : string) (region_arg country_arg : pyval)
    (responses : list Response) :
  CachedSession w = Ok () ->
  weather_api w lat lon tz = Ok responses ->
  (responses = [] \/
   exists resp rest, responses = resp :: rest /\
     (r_Current resp = None \/ r_Hourly resp = None \/
      (exists cur j e, r_Current resp = Some cur /\ (j < 6)%nat /\
                       cur_Value cur j = Raise e) \/
      (exists hb j e, r_Hourly resp = Some hb /\ (j < 2)%nat /\
                      hb_ValuesAsNumpy hb j = Raise e))) ->
  exists li,
    get_weather w lat lon place_name tz region_arg country_arg =
    Ok (degraded_weather_data, li, None).
Proof.
  intros Hs Hapi Hbad.
  rewrite (get_weather_after_session _ _ _ _ _ _ _ Hs). cbv zeta.
  destruct (fetch_and_normalize w lat lon tz) as [[wd resp']|e] eqn:E; [|eauto].
  exfalso.
  destruct (fetch_and_normalize_inv _ _ _ _ _ _ E)
    as (rest' & cur & v0 & v1 & v2 & v3 & v4 & v5 & code & hb & t2m & wmo_raw & Hinv).
  destruct Hinv as (Hapi' & Hcur & H0 & H1 & H2 & H3 & H4 & H5 & _ & _ & _ & _ & _ & _
                    & _ & _ & Hhb & Ht & Hw & _).
  rewrite Hapi in Hapi'. injection Hapi' as ->.
  destruct Hbad as [Hnil | (resp & rest & Heq & Hpart)]; [discriminate|].
  injection Heq as <- <-.
  destruct Hpart as [Hc | [Hh | [(cur' & j & e & Hc & Hj & He)
                                | (hb' & j & e & Hh & Hj & He)]]].
  - congruence.
  - congruence.
  - rewrite Hcur in Hc. injection Hc as <-.
    destruct j as [|[|[|[|[|[|j]]]]]]; try lia; congruence.
  - rewrite Hhb in Hh. injection Hh as <-. unfold hourly_values in Ht, Hw.
    destruct j as [|[|j]]; try lia; rewrite He in *; discriminate.
Qed.

Definition empty_answer_world : World :=
  {| CachedSession := Ok ();
     weather_api := fun _ _ _ => Ok [];
     np_invalid_cast := - 2 ^ 63;
     requests_get := fun _ url _ => Ok (http_ok url berlin_body) |}.

Lemma get_weather_degraded_on_missing_parts_witness :
  exists li,
    get_weather empty_answer_world (FFin (105 # 2)) (FFin (53 # 4)) (PStr "Berlin")
      default_tz (PStr "Berlin") (PStr "Germany") = Ok (degraded_weather_data, li, None).
Proof.
  apply (get_weather_degraded_on_missing_parts empty_answer_world _ _ _ _ _ _ []
           eq_refl eq_refl).
  now left.
Defined.
(** ** format_hourly_forecast: the rows *)

(** The selection returns whenever every point and the current time have
    a local time; the rows it returns are points of the list in their
    order; for a non-negative [hours] there are at most [hours] of them,
    and for a non-empty list and a positive [hours] there is at least one:
    the block never consists of the heading alone. *)
Theorem select_rows_bounds (clk : Clock) (hourly : list HourlyPoint) (hours : Z) :
  (formattable clk hourly -> exists rows, select_rows clk hourly hours = Ok rows) /\
  (forall rows,
     select_rows clk hourly hours = Ok rows ->
     rows `sublist_of` hourly /\
     (0 <= hours -> (length rows <= Z.to_nat hours)%nat) /\
     (0 < hours -> hourly <> [] -> rows <> [])).
Proof.
  split.
  - intros Hform. rewrite (select_rows_Ok _ _ _ Hform). eauto.
  - intros rows H. apply select_rows_Ok_inv in H as [-> _].
    split; [apply rows_value_sublist|]. unfold rows_value, py_slice_to. split.
    + intros Hh. destruct (0 <=? hours) eqn:E0; [|lia].
      destruct (filter (spec_not_past clk) hourly); rewrite length_take; lia.
    + intros Hh Hne. destruct (0 <=? hours) eqn:E0; [|lia].
      destruct (Z.to_nat hours) as [|k] eqn:Ek; [lia|].
      destruct (filter (spec_not_past clk) hourly) as [|f fs]; [|discriminate].
      destruct hourly; [congruence | discriminate].
Qed.

Lemma select_rows_bounds_witness :
  exists rows,
    select_rows clock_1425 points_13_to_16 2 = Ok rows /\
    (length rows <= 2)%nat /\ rows <> [].
Proof.
  destruct (select_rows_bounds clock_1425 points_13_to_16 2) as (Hreturns & Hrows).
  destruct (Hreturns points_13_to_16_formattable) as [rows Hr].
  exists rows. split; [exact Hr|].
  destruct (Hrows rows Hr) as (_ & Hle & Hne).
  split; [apply Hle; lia | apply Hne; [lia | discriminate]].
Defined.

Lemma hour_floor_le (H a b : Z) :
  0 < H -> (b - b `mod` H <= a - a `mod` H <-> b - b `mod` H <= a).
Proof.
  intros HH. rewrite !Z.mod_eq by lia.
  replace (b - (b - H * (b `div` H))) with (H * (b `div` H)) by ring.
  replace (a - (a - H * (a `div` H))) with (H * (a `div` H)) by ring.
  split.
  - intros Hle. pose proof (Z.mul_div_le a H HH). lia.
  - intros Hle. apply Z.mul_le_mono_nonneg_l; [lia|].
    apply Z.div_le_lower_bound; lia.
Qed.

(** Where local time keeps one offset from UTC, the condition of the
    filter has a value whenever the point and the current time have a
    local time, and a point passes exactly if its instant is not before
    the start of the current local hour: a point of the running hour
    stays, also when its minute is past. *)
Theorem is_future_constant_offset (clk : Clock) (offset : Z) (h : HourlyPoint) :
  (forall i, local_offset clk i = offset) ->
  (localizable clk (h_time h) = true -> localizable clk (now_utc clk) = true ->
   exists b, is_future clk h = Ok b) /\
  (forall b,
     is_future clk h = Ok b ->
     (b = true <-> spec_hour_floor clk (now_instant clk) <= instant (h_time h))).
Proof.
  intros Hoff. split.
  - intros Hh Hn. rewrite (is_future_Ok _ _ Hh Hn). eauto.
  - intros b H. apply is_future_Ok_inv in H as (_ & _ & ->).
    rewrite bool_decide_eq_true. unfold spec_not_past, spec_hour_floor.
    rewrite !Hoff. cbv zeta.
    pose proof (hour_floor_le HOUR (instant (h_time h) + offset)
                  (now_instant clk + offset) ltac:(reflexivity)) as Hfl.
    split; intros Hle.
    + assert (now_instant clk + offset - (now_instant clk + offset) `mod` HOUR
              <= instant (h_time h) + offset - (instant (h_time h) + offset) `mod` HOUR)
        as Hle' by lia.
      apply Hfl in Hle'. lia.
    + assert (now_instant clk + offset - (now_instant clk + offset) `mod` HOUR
              <= instant (h_time h) + offset) as Hle' by lia.
      apply Hfl in Hle'. lia.
Qed.

Lemma is_future_constant_offset_witness :
  is_future clock_1425 (point_at 13 21 1) = Ok true.
Proof.
  destruct (is_future_constant_offset clock_1425 HOUR (point_at 13 21 1)
              (fun i => eq_refl)) as [Hreturns Hvalue].
  destruct (Hreturns eq_refl eq_refl) as [b Hb].
  rewrite Hb. f_equal. apply (Hvalue b Hb). vm_compute. discriminate.
Defined.

(** ** build_waybar_output: the lines of the tooltip *)

Lemma join_lines_cons x y l : join_lines (x :: y :: l) = x +:+ LF +:+ join_lines (y :: l).
Proof. reflexivity. Qed.

Lemma select_rows_nil clk hours : select_rows clk [] hours = Ok [].
Proof.
  unfold select_rows, py_slice_to. cbn [filterM mbind result_bind mret result_ret].
  destruct (0 <=? hours); now rewrite take_nil.
Qed.

(** The tooltip that [main] builds, line by line.  The builder returns
    whenever there are no hourly points or all of them and the current
    time have a local time.  If the three location fields, the icon and
    the capitalized description hold no line feed, every tooltip it
    returns is: the location line; the warning line if the flag is set;
    the temperature, description, feels-like, humidity and wind lines;
    and, if there are hourly points, an empty line, the heading and the
    selected rows.  Nothing else, and in this order. *)
Theorem tooltip_lines (py : Builtins) (clk : Clock) (response : option Response)
    (li : LocationInfo) (wd : WeatherData) (hours : Z) :
  has_byte "010"%char (py_str py (city li)) = false ->
  has_byte "010"%char (py_str py (region li)) = false ->
  has_byte "010"%char (py_str py (country li)) = false ->
  has_byte "010"%char (icon (weather (current wd))) = false ->
  has_byte "010"%char (capitalize (description (weather (current wd)))) = false ->
  (hourly wd = [] \/ formattable clk (hourly wd) ->
   exists out,
     build_waybar_output py response li wd
       (if request_limit_reached wd then limit_warning else "")
       (fun hourly => format_hourly_forecast clk hourly hours) = Ok out) /\
  (forall out,
     build_waybar_output py response li wd
       (if request_limit_reached wd then limit_warning else "")
       (fun hourly => format_hourly_forecast clk hourly hours) = Ok out ->
     exists rows,
       select_rows clk (hourly wd) hours = Ok rows /\
       split_lines (tooltip out) =
       [ "📍 " +:+ py_str py (city li) +:+ ", " +:+ py_str py (region li) +:+ ", "
           +:+ py_str py (country li) ]
       ++ (if request_limit_reached wd
           then ["⚠️ API request limit reached - showing cached/offline data"] else [])
       ++ [ "<span size='xx-large'>" +:+ str_int (temp (current wd)) +:+ "°C</span>";
            "<big>" +:+ icon (weather (current wd)) +:+ " "
              +:+ capitalize (description (weather (current wd))) +:+ "</big>";
            "Gefühlte: " +:+ str_int (feels_like (current wd)) +:+ "°C";
            "Feuchtigkeit: " +:+ str_int (humidity (current wd)) +:+ "%";
            "Wind: " +:+ str_int (wind_speed (current wd)) +:+ " km/h" ]
       ++ match hourly wd with
          | [] => []
          | _ => [""; "Stündlich:"] ++ map (hourly_line_text clk) rows
          end).
Proof.
  intros Hc Hr Hk Hi Hd. split.
  - intros Hfmt. unfold build_waybar_output.
    destruct (hourly wd) as [|h0 rest] eqn:Eh.
    + cbn [format_hourly_forecast mret result_ret mbind result_bind]. eauto.
    + destruct Hfmt as [Hnil | Hform]; [discriminate|].
      assert (Hne : h0 :: rest <> []) by discriminate.
      rewrite (format_hourly_forecast_Ok _ _ _ Hne Hform).
      cbn [mbind result_bind mret result_ret]. eauto.
  - intros out Hout.
    destruct (build_waybar_output_Ok_inv _ _ _ _ _ _ _ Hout) as (block & Hblock & Hout').
    assert (Hrows : exists rows,
               select_rows clk (hourly wd) hours = Ok rows /\
               block = match hourly wd with
                       | [] => ""
                       | _ => join_lines ([""; ""; "Stündlich:"]
                                            ++ map (hourly_line_text clk) rows)
                       end).
    { destruct (hourly wd) as [|h0 rest] eqn:Eh.
      - exists []. split; [apply select_rows_nil|].
        cbn [format_hourly_forecast mret result_ret] in Hblock. now injection Hblock as <-.
      - apply format_hourly_forecast_Ok_inv in Hblock as (_ & Hsel & ->); [|discriminate].
        eauto. }
    destruct Hrows as (rows & Hsel & ->). exists rows. split; [exact Hsel|].
    unfold build_waybar_output in Hout'. cbn [mbind result_bind mret result_ret] in Hout'.
    injection Hout' as <-. cbn [tooltip].
    match goal with |- split_lines ?t = ?L => assert (Heq : t = join_lines L) end.
    { unfold limit_warning.
      destruct (request_limit_reached wd), (hourly wd) as [|h0 rest];
        cbn [app]; rewrite ?join_lines_cons; rewrite !string_app_assoc; reflexivity. }
    rewrite Heq. apply split_lines_join_lines.
    + destruct (request_limit_reached wd); discriminate.
    + assert (Hnum : forall z, has_byte "010"%char (str_int z) = false)
        by (intros z; now apply has_byte_str_int).
      apply Forall_app. split; [|apply Forall_app; split; [|apply Forall_app; split]].
      * apply Forall_singleton. now rewrite !has_byte_app, Hc, Hr, Hk.
      * destruct (request_limit_reached wd);
          [apply Forall_singleton; reflexivity | constructor].
      * repeat first [apply Forall_nil_2 | apply Forall_cons_2];
          rewrite !has_byte_app, ?Hnum, ?Hi, ?Hd; reflexivity.
      * destruct (hourly wd); [constructor|].
        do 2 (apply Forall_cons_2; [reflexivity|]).
        apply Forall_forall. intros ln [pt [-> _]]%list_elem_of_fmap.
        apply has_LF_hourly_line_text.
Qed.

Lemma tooltip_lines_witness :
  exists out,
    build_waybar_output (Resp := Response) no_builtins None berlin_location
      degraded_weather_data limit_warning
      (fun hourly => format_hourly_forecast clock_1425 hourly default_hours) = Ok out /\
    split_lines (tooltip out) =
    [ "📍 Berlin, Berlin, Germany";
      "⚠️ API request limit reached - showing cached/offline data";
      "<span size='xx-large'>0°C</span>";
      "<big>❓ Unbekannt</big>";
      "Gefühlte: 0°C"; "Feuchtigkeit: 0%"; "Wind: 0 km/h" ].
Proof.
  destruct (tooltip_lines no_builtins clock_1425 None berlin_location
              degraded_weather_data default_hours eq_refl eq_refl eq_refl eq_refl eq_refl)
    as [Hreturns Hlines].
  destruct (Hreturns (or_introl eq_refl)) as [out Hout].
  exists out. split; [exact Hout|].
  destruct (Hlines out Hout) as (rows & _ & ->). reflexivity.
Defined.
(** ** get_ip_location: outcomes *)

(** A location that [get_ip_location] returns is the tuple extracted from
    the answer of one provider, every provider before it having failed,
    and no request was made after it: provider [i] costs [i + 1] requests. *)
Theorem get_ip_location_Ok_inv (py : Builtins) (w : World) (timeout : Z) (k n : nat)
    (loc : IpLocation) :
  get_ip_location py w timeout k = (Ok loc, n) ->
  exists i p,
    providers py !! i = Some p /\
    fail_before w timeout (providers py) k i /\
    try_provider w timeout (k + i) p = Ok loc /\
    n = S (k + i) /\ (i < 3)%nat.
Proof.
  intros H. unfold get_ip_location in H.
  apply try_providers_Ok_inv in H as (i & p & Hi & Hfail & Hok & ->).
  exists i, p. repeat split; try assumption.
  apply lookup_lt_Some in Hi. exact Hi.
Qed.

Lemma get_ip_location_Ok_inv_witness :
  exists i p,
    providers no_builtins !! i = Some p /\
    try_provider third_provider_world default_timeout (0 + i) p =
      Ok (FFin (105 # 2), FFin (53 # 4), PStr "Berlin", PStr "Land Berlin", PStr "Germany") /\
    3%nat = S (0 + i).
Proof.
  destruct (get_ip_location_Ok_inv no_builtins third_provider_world default_timeout 0 3
              (FFin (105 # 2), FFin (53 # 4), PStr "Berlin", PStr "Land Berlin",
               PStr "Germany") eq_refl)
    as (i & p & Hi & _ & Hok & Hn & _).
  exists i, p. repeat split; assumption.
Defined.

(** Whatever goes wrong with the providers, the only exception that leaves
    [get_ip_location] is a RuntimeError; it is raised after exactly three
    requests and its message is the fixed prefix followed by [str] of the
    third provider's failure. *)
Theorem get_ip_location_Raise_inv (py : Builtins) (w : World) (timeout : Z) (k n : nat)
    (e : exn) :
  get_ip_location py w timeout k = (Raise e, n) ->
  n = (k + 3)%nat /\
  exists e_last,
    try_provider w timeout (k + 2) ("http://ip-api.com/json", parse_ip_api py)
      = Raise e_last /\
    e = Exn "RuntimeError" ("IP-Geolokation fehlgeschlagen: " +:+ exn_str e_last).
Proof.
  unfold get_ip_location, providers. cbn [try_providers].
  destruct (try_provider w timeout k _) as [l1|e1]; [discriminate|].
  destruct (try_provider w timeout (S k) _) as [l2|e2]; [discriminate|].
  destruct (try_provider w timeout (S (S k)) _) as [l3|e3] eqn:E3; [discriminate|].
  intros [= <- <-]. split; [lia|].
  exists e3. replace (k + 2)%nat with (S (S k)) by lia. split; [exact E3 | reflexivity].
Qed.

Lemma get_ip_location_Raise_inv_witness :
  3%nat = (0 + 3)%nat /\
  exists e_last,
    try_provider no_network_world default_timeout (0 + 2)
      ("http://ip-api.com/json", parse_ip_api no_builtins) = Raise e_last /\
    Exn "RuntimeError" "IP-Geolokation fehlgeschlagen: unreachable: http://ip-api.com/json"
    = Exn "RuntimeError" ("IP-Geolokation fehlgeschlagen: " +:+ exn_str e_last).
Proof.
  exact (get_ip_location_Raise_inv no_builtins no_network_world default_timeout 0 3
           (Exn "RuntimeError"
              "IP-Geolokation fehlgeschlagen: unreachable: http://ip-api.com/json")
           eq_refl).
Defined.

(** A provider that answers with a status from 400 to 599 has failed,
    whatever its body holds; with any other status the outcome is that of
    decoding the body and extracting the fields. *)
Theorem try_provider_status (w : World) (timeout : Z) (k : nat) (url : string)
    (parser : pyval -> result IpLocation) (r : HttpResponse) :
  requests_get w k url timeout = Ok r ->
  (400 <= status_code r < 600 ->
   exists msg, try_provider w timeout k (url, parser) = Raise (Exn "HTTPError" msg)) /\
  (~ 400 <= status_code r < 600 ->
   try_provider w timeout k (url, parser) = json r ≫= parser).
Proof.
  intros Hget. unfold try_provider. rewrite Hget. cbn [mbind result_bind].
  unfold raise_for_status. split; intros Hs.
  - destruct ((400 <=? status_code r) && (status_code r <? 500)) eqn:E4; [eauto|].
    destruct ((500 <=? status_code r) && (status_code r <? 600)) eqn:E5; [eauto|].
    lia.
  - destruct ((400 <=? status_code r) && (status_code r <? 500)) eqn:E4; [lia|].
    destruct ((500 <=? status_code r) && (status_code r <? 600)) eqn:E5; [lia|].
    reflexivity.
Qed.

Definition rate_limited_world : World :=
  {| CachedSession := Ok ();
     weather_api := fun _ _ _ => Ok [ragged_response];
     np_invalid_cast := - 2 ^ 63;
     requests_get := fun _ url _ =>
       Ok {| status_code := 429; reason := "Too Many Requests"; url := url;
             json := Ok berlin_body |} |}.

Lemma try_provider_status_witness :
  exists msg,
    try_provider rate_limited_world default_timeout 0
      ("https://ipapi.co/json/", parse_ipapi no_builtins) = Raise (Exn "HTTPError" msg).
Proof.
  apply (proj1 (try_provider_status rate_limited_world default_timeout 0
                  "https://ipapi.co/json/" (parse_ipapi no_builtins) _ eq_refl)).
  simpl. lia.
Defined.

(** A body that is valid JSON but not an object (a list, a string, a
    number, null) makes each of the three extraction rules raise a
    TypeError, so the provider counts as failed. *)
Theorem parsers_reject_non_dict (py : Builtins) (d : pyval) :
  (forall m, d <> PDict m) ->
  forall p, p ∈ providers py -> exists msg, p.2 d = Raise (Exn "TypeError" msg).
Proof.
  intros Hd p Hp. unfold providers in Hp.
  apply elem_of_cons in Hp as [->|Hp]; [|apply elem_of_cons in Hp as [->|Hp];
    [|apply list_elem_of_singleton in Hp as ->]];
    cbn [snd]; unfold parse_ipapi, parse_ipinfo, parse_ip_api;
    destruct d; try (eexists; reflexivity); exfalso; eapply Hd; reflexivity.
Qed.

Lemma parsers_reject_non_dict_witness :
  exists msg, parse_ipinfo no_builtins (PList [PStr "52.5,13.25"]) = Raise (Exn "TypeError" msg).
Proof.
  apply (parsers_reject_non_dict no_builtins (PList [PStr "52.5,13.25"])
           ltac:(discriminate) ("https://ipinfo.io/json", parse_ipinfo no_builtins)).
  unfold providers. apply list_elem_of_further, list_elem_of_here.
Defined.

(** ** The extraction rules on an object *)

(** On an object, the rules of ipapi.co and ip-api.com need only the two
    coordinates: without the latitude key they raise a KeyError; with
    coordinates that convert, they succeed, a missing city, region or
    country is [None], and the preferred key ([country_name],
    [regionName]) gives way to the second one when it is missing or
    empty. *)
Theorem parse_coordinates_and_optional_fields (py : Builtins) (m : gmap string pyval) :
  (m !! "latitude" = None ->
   parse_ipapi py (PDict m) = Raise (Exn "KeyError" "'latitude'")) /\
  (m !! "lat" = None ->
   parse_ip_api py (PDict m) = Raise (Exn "KeyError" "'lat'")) /\
  (forall a b la lo,
     m !! "latitude" = Some a -> py_float py a = Ok la ->
     m !! "longitude" = Some b -> py_float py b = Ok lo ->
     parse_ipapi py (PDict m) =
       Ok (la, lo, dict_get m "city" PNone, dict_get m "region" PNone,
           py_or (dict_get m "country_name" PNone) (dict_get m "country" PNone))) /\
  (forall a b la lo,
     m !! "lat" = Some a -> py_float py a = Ok la ->
     m !! "lon" = Some b -> py_float py b = Ok lo ->
     parse_ip_api py (PDict m) =
       Ok (la, lo, dict_get m "city" PNone,
           py_or (dict_get m "regionName" PNone) (dict_get m "region" PNone),
           dict_get m "country" PNone)).
Proof.
  unfold parse_ipapi, parse_ip_api, py_or.
  split; [|split; [|split]].
  - intros H. cbn [py_getitem]. now rewrite H.
  - intros H. cbn [py_getitem]. now rewrite H.
  - intros a b la lo Ha Hla Hb Hlo. cbn [py_getitem py_get].
    rewrite Ha, Hb. cbn [mbind result_bind]. rewrite Hla, Hlo.
    now destruct (py_truthy (dict_get m "country_name" PNone)).
  - intros a b la lo Ha Hla Hb Hlo. cbn [py_getitem py_get].
    rewrite Ha, Hb. cbn [mbind result_bind]. rewrite Hla, Hlo.
    now destruct (py_truthy (dict_get m "regionName" PNone)).
Qed.

Lemma parse_coordinates_and_optional_fields_witness :
  parse_ipapi no_builtins
    (PDict (list_to_map [ ("latitude", PFloat (FFin (105 # 2)));
                          ("longitude", PInt 13);
                          ("country_name", PStr "");
                          ("country", PStr "DE") ])) =
  Ok (FFin (105 # 2), FFin (inject_Z 13), PNone, PNone, PStr "DE").
Proof.
  exact (proj1 (proj2 (proj2 (parse_coordinates_and_optional_fields no_builtins
           (list_to_map [ ("latitude", PFloat (FFin (105 # 2)));
                          ("longitude", PInt 13);
                          ("country_name", PStr "");
                          ("country", PStr "DE") ]))))
         (PFloat (FFin (105 # 2))) (PInt 13) (FFin (105 # 2)) (FFin (inject_Z 13))
         eq_refl eq_refl eq_refl eq_refl).
Defined.

(** The rule of ipinfo.io reads both coordinates from the string [loc]: a
    [loc] without a comma makes it fail, and of a [loc] with more than one
    comma only the first two parts are used. *)
Theorem parse_ipinfo_loc (py : Builtins) (m : gmap string pyval) (s : string) :
  m !! "loc" = Some (PStr s) ->
  (has_byte ","%char s = false -> exists e, parse_ipinfo py (PDict m) = Raise e) /\
  (forall a b others la lo,
     split_comma s = a :: b :: others ->
     float_of_str py a = Ok la -> float_of_str py b = Ok lo ->
     parse_ipinfo py (PDict m) =
       Ok (la, lo, dict_get m "city" PNone, dict_get m "region" PNone,
           dict_get m "country" PNone)).
Proof.
  intros Hloc. unfold parse_ipinfo. cbn [py_getitem py_get]. rewrite Hloc.
  cbn [mbind result_bind py_split_comma]. split.
  - intros Hs. unfold split_comma. rewrite (split_byte_absent _ _ Hs).
    cbn [py_index lookup list_lookup mbind result_bind py_float].
    destruct (float_of_str py s); eauto.
  - intros a b others la lo Hsplit Ha Hb. rewrite Hsplit.
    cbn [py_index lookup list_lookup mbind result_bind py_float].
    now rewrite Ha, Hb.
Qed.

(** Builtins that know the two literals of the examples. *)
Definition literal_builtins : Builtins :=
  {| float_of_str := fun s =>
       if String.eqb s "52.5" then Ok (FFin (105 # 2))
       else if String.eqb s "13.25" then Ok (FFin (53 # 4))
       else Raise (Exn "ValueError" ("could not convert string to float: '" +:+ s +:+ "'"));
     float_of_big_int := float_of_big_int no_builtins;
     repr_other := repr_other no_builtins |}.

Lemma parse_ipinfo_loc_witness :
  parse_ipinfo literal_builtins
    (PDict (list_to_map [ ("loc", PStr "52.5,13.25,0"); ("city", PStr "Berlin") ])) =
    Ok (FFin (105 # 2), FFin (53 # 4), PStr "Berlin", PNone, PNone) /\
  exists e,
    parse_ipinfo literal_builtins (PDict (list_to_map [ ("loc", PStr "52.5") ])) = Raise e.
Proof.
  split.
  - exact (proj2 (parse_ipinfo_loc literal_builtins
                    (list_to_map [ ("loc", PStr "52.5,13.25,0"); ("city", PStr "Berlin") ])
                    "52.5,13.25,0" eq_refl)
             "52.5" "13.25" ["0"] _ _ eq_refl eq_refl eq_refl).
  - exact (proj1 (parse_ipinfo_loc literal_builtins
                    (list_to_map [ ("loc", PStr "52.5") ]) "52.5" eq_refl) eq_refl).
Defined.

(** ** main: when it raises *)




(** A forecast whose only hour starts at 23:00 UTC on the last day of the
    year 9999: one hour east of Greenwich its local time is in the year
    10000. *)
Definition last_hour_hourly : HourlyBlock :=
  {| hb_Time := 253402297200;
     hb_TimeEnd := 253402297200 + 3599;
     hb_Interval := 3599;
     hb_ValuesAsNumpy := values_of [ [FFin 4]; [FFin 0] ] |}.

Definition last_hour_world : World :=
  {| CachedSession := Ok ();
     weather_api := fun _ _ _ =>
       Ok [ {| r_Current := Some berlin_current; r_Hourly := Some last_hour_hourly |} ];
     np_invalid_cast := - 2 ^ 63;
     requests_get := fun _ url _ => Ok (http_ok url berlin_body) |}.

Example main_raises_OverflowError :
  main no_builtins last_hour_world clock_1425 =
  (Raise OverflowError_date, {| stdout := []; stderr := [] |}).
Proof. vm_compute. reflexivity. Qed.



(** ** main: the bytes of the JSON line *)

Fixpoint no_control (s : string) : bool :=
  match s with
  | EmptyString => true
  | String c rest => (32 <=? nat_of_ascii c)%nat && no_control rest
  end.

Lemma no_control_app a b : no_control (a +:+ b) = no_control a && no_control b.
Proof.
  induction a as [|c a IH]; [reflexivity|].
  change (no_control (String c (a +:+ b)) = no_control (String c a) && no_control b).
  cbn [no_control]. rewrite IH. now rewrite andb_assoc.
Qed.

Lemma no_control_json_escape s : no_control (json_escape s) = true.
Proof.
  induction s as [|c s IH]; [reflexivity|].
  cbn [json_escape]. rewrite no_control_app, IH, andb_true_r.
  destruct c as [[] [] [] [] [] [] [] []]; reflexivity.
Qed.

(** The JSON text that [main] prints holds no control character, whatever
    the fields of the output contain: line feeds, tabs and the other bytes
    below 0x20 of a city name or a description are all escaped. *)
Theorem json_dumps_no_control (o : WaybarOutput) : no_control (json_dumps o) = true.
Proof.
  unfold json_dumps, json_string.
  now rewrite !no_control_app, !no_control_json_escape.
Qed.
